(** * robotin-screenshot: capture strategies, region parsing and PNG output

    A shallow embedding of the Go sources

      - [cmd/root.go]                   (package [cmd])
      - [internal/strategy/strategy.go] (package [strategy], the interface)
      - [internal/strategy/x11.go]      (package [strategy], the X11 backend)
      - package [capture]               (the capturer and the PNG output)

    Go's [int] is a 64-bit two's complement integer, embedded as [Z] with the
    wrap-around written out.  Go strings are byte strings, embedded as
    [string] (one [ascii] per byte).  The process environment is a finite
    map from variable names to values; an unset variable has no entry. *)

From Stdlib Require Import ZArith Ascii String List Lia DecimalString DecimalZ DecimalN.
From stdpp Require Import base gmap strings list.

Local Open Scope string_scope.
Local Open Scope Z_scope.

(** ** Go integers *)

Definition intSize : Z := 64.
Definition minInt : Z := - 2 ^ (intSize - 1).
Definition maxInt : Z := 2 ^ (intSize - 1) - 1.

Definition in_int (z : Z) : Prop := minInt <= z <= maxInt.

Definition in_intb (z : Z) : bool := (minInt <=? z) && (z <=? maxInt).

(** Two's complement wrap-around of an arithmetic result. *)
Definition wrap (z : Z) : Z := (z - minInt) mod 2 ^ intSize + minInt.

Definition int_add (a b : Z) : Z := wrap (a + b).

(** ** Package [image] *)

Record Point : Set := mkPoint { X : Z; Y : Z }.

Record Rectangle : Set := mkRectangle { Min : Point; Max : Point }.

(** [image.Rect]: the rectangle with the given corners, swapped where needed
    so that the result is canonical. *)
Definition image_Rect (x0 y0 x1 y1 : Z) : Rectangle :=
  let '(x0, x1) := if x1 <? x0 then (x1, x0) else (x0, x1) in
  let '(y0, y1) := if y1 <? y0 then (y1, y0) else (y0, y1) in
  {| Min := {| X := x0; Y := y0 |}; Max := {| X := x1; Y := y1 |} |}.

Definition canonical (r : Rectangle) : Prop :=
  X (Min r) <= X (Max r) /\ Y (Min r) <= Y (Max r).

(** [Rectangle.Dx] and [Rectangle.Dy], in [int] arithmetic. *)
Definition Dx (r : Rectangle) : Z := wrap (X (Max r) - X (Min r)).
Definition Dy (r : Rectangle) : Z := wrap (Y (Max r) - Y (Min r)).

(** ** Package [errors] / [fmt.Errorf]

    An error is its message; [%w] keeps the wrapped error next to the
    formatted message. *)

Inductive error : Set :=
  | errorString (msg : string)
  | wrapError (msg : string) (inner : error).

Definition Error (e : error) : string :=
  match e with
  | errorString msg => msg
  | wrapError msg _ => msg
  end.

Definition Unwrap (e : error) : option error :=
  match e with
  | errorString _ => None
  | wrapError _ inner => Some inner
  end.

(** [fmt.Errorf(prefix + "%w", e)] *)
Definition Errorf_w (prefix : string) (e : error) : error :=
  wrapError (prefix +:+ Error e) e.

Inductive result (A : Type) : Type :=
  | Ok (a : A)
  | Err (e : error).
Arguments Ok {A} a.
Arguments Err {A} e.

(** ** Package [strconv] and the [%d] verb *)

(** [%d] of an [int]: decimal digits, with a leading minus sign when
    negative. *)
Definition fmt_d (z : Z) : string := NilZero.string_of_int (Z.to_int z).

(** [strconv.Atoi]: an optional sign, then one or more decimal digits and
    nothing else; the value has to fit an [int] (otherwise a range error).
    [None] stands for either error. *)
Definition Atoi_digits (s : string) : option Z :=
  d ← NilZero.uint_of_string s; Some (Z.of_N (N.of_uint d)).

Definition Atoi (s : string) : option Z :=
  match s with
  | EmptyString => None
  | String c r =>
      v ← (if Ascii.eqb c "-" then Z.opp <$> Atoi_digits r
           else if Ascii.eqb c "+" then Atoi_digits r
           else Atoi_digits s);
      if in_intb v then Some v else None
  end.

(** ** Package [strings] *)

(** [strings.Split(s, ",")]: the substrings between the commas; always at
    least one. *)
Fixpoint Split_comma (s : string) : list string :=
  match s with
  | EmptyString => [EmptyString]
  | String c r =>
      if Ascii.eqb c "," then EmptyString :: Split_comma r
      else match Split_comma r with
           | p :: ps => String c p :: ps
           | [] => [String c EmptyString]
           end
  end.

Definition byte_is (c : ascii) (n : N) : bool := N.eqb (N_of_ascii c) n.

(** The [asciiSpace] table: tab, newline, vertical tab, form feed, carriage
    return, space. *)
Definition asciiSpace (c : ascii) : bool :=
  let n := N_of_ascii c in
  (N.leb 9 n && N.leb n 13) || N.eqb n 32.

(** UTF-8 encodings of the other white space runes of [unicode.IsSpace]:
    U+0085 and U+00A0 (two bytes); U+1680, U+2000..U+200A, U+2028, U+2029,
    U+202F, U+205F and U+3000 (three bytes). *)
Definition space2 (a b : ascii) : bool :=
  byte_is a 194 && (byte_is b 133 || byte_is b 160).

Definition space3 (a b c : ascii) : bool :=
  let nc := N_of_ascii c in
  (byte_is a 225 && byte_is b 154 && byte_is c 128)
  || (byte_is a 226 && byte_is b 128
      && ((N.leb 128 nc && N.leb nc 138) || N.eqb nc 168 || N.eqb nc 169
          || N.eqb nc 175))
  || (byte_is a 226 && byte_is b 129 && byte_is c 159)
  || (byte_is a 227 && byte_is b 128 && byte_is c 128).

(** Drops white space runes from the front; [two] and [three] recognise the
    multi-byte ones in the order the bytes are met. *)
Fixpoint trim_front (two : ascii -> ascii -> bool)
    (three : ascii -> ascii -> ascii -> bool) (s : string) : string :=
  match s with
  | EmptyString => s
  | String a r =>
      if asciiSpace a then trim_front two three r else
      match r with
      | EmptyString => s
      | String b r1 =>
          if two a b then trim_front two three r1 else
          match r1 with
          | EmptyString => s
          | String c r2 => if three a b c then trim_front two three r2 else s
          end
      end
  end.

Definition string_rev (s : string) : string :=
  string_of_list_ascii (rev (list_ascii_of_string s)).

Definition TrimLeft (s : string) : string := trim_front space2 space3 s.

Definition TrimRight (s : string) : string :=
  string_rev (trim_front (fun a b => space2 b a) (fun a b c => space3 c b a)
                (string_rev s)).

(** [strings.TrimSpace] *)
Definition TrimSpace (s : string) : string := TrimRight (TrimLeft s).

(** ** Package [image/png] *)

Inductive CompressionLevel : Set :=
  | DefaultCompression
  | NoCompression
  | BestSpeed
  | BestCompression.

(** ** The process and its host

    What the program reads and changes while it runs: the environment, the
    [originalDisplay] field of the one [X11Strategy] object, the directories
    it has made sure exist, the files it holds open, and the calls it made
    to the outside, oldest first. *)

Inductive Sink : Set :=
  | ToFile (fd : nat)
  | ToStdout.

Inductive Event : Set :=
  | EvNumActiveDisplays (target : string)
  | EvGetDisplayBounds (target : string) (i : Z)
  | EvCaptureRect (target : string) (r : Rectangle)
  | EvMkdirAll (dir : string)
  | EvCreate (path : string)
  | EvEncode (sink : Sink) (level : CompressionLevel)
  | EvClose (fd : nat)
  | EvPrint (line : string)
  | EvStart (argv : list string).

Record World : Type := mkWorld {
  env : gmap string string;
  originalDisplay : string;
  dirs : gset string;
  open_files : gset nat;
  log : list Event
}.

(** The capabilities the program takes from outside the repository:
    [github.com/kbinani/screenshot] (which talks to the X server named by
    [$DISPLAY], here the [target] argument), and the parts of [os],
    [path/filepath], [image/png], [time], [runtime] and [os/exec] it calls.
    [NumActiveDisplays] is the length of the server's screen list. *)
Class Host : Type := {
  Image : Type;
  NumActiveDisplays : string -> nat;
  GetDisplayBounds : string -> Z -> Rectangle;
  CaptureRect : string -> Rectangle -> result Image;
  filepath_Dir : string -> string;
  MkdirAll_error : string -> option error;
  Create_error : string -> option error;
  Encode_error : Sink -> CompressionLevel -> Image -> option error;
  Close_error : nat -> option error;
  timestamp : string;
  GOOS : string;
  Start_error : list string -> option error
}.

(** Computations that read and change the world. *)
Definition M (A : Type) : Type := World -> A * World.

#[global] Instance M_ret : MRet M := fun A a w => (a, w).
#[global] Instance M_bind : MBind M :=
  fun A B f m w => let '(a, w') := m w in f a w'.

Definition emit (e : Event) : M unit :=
  fun w => (tt, mkWorld (env w) (originalDisplay w) (dirs w) (open_files w)
                  (log w ++ [e])).

Definition set_env (f : gmap string string -> gmap string string) : M unit :=
  fun w => (tt, mkWorld (f (env w)) (originalDisplay w) (dirs w)
                  (open_files w) (log w)).

(** [os.Getenv]: the empty string when the variable is unset. *)
Definition getenv (e : gmap string string) (k : string) : string :=
  default "" (e !! k).

Definition Getenv (k : string) : M string := fun w => (getenv (env w) k, w).
Definition Setenv (k v : string) : M unit := set_env (insert k v).
Definition Unsetenv (k : string) : M unit := set_env (delete k).

Definition string_eqb (a b : string) : bool := bool_decide (a = b).

(** *** Calls to [github.com/kbinani/screenshot] *)

Section Screenshot.
Context `{Host}.

Definition screenshot_NumActiveDisplays : M nat :=
  target ← Getenv "DISPLAY";
  _ ← emit (EvNumActiveDisplays target);
  mret (NumActiveDisplays target).

Definition screenshot_GetDisplayBounds (i : Z) : M Rectangle :=
  target ← Getenv "DISPLAY";
  _ ← emit (EvGetDisplayBounds target i);
  mret (GetDisplayBounds target i).

Definition screenshot_CaptureRect (r : Rectangle) : M (result Image) :=
  target ← Getenv "DISPLAY";
  _ ← emit (EvCaptureRect target r);
  mret (CaptureRect target r).

End Screenshot.

(** The values [i] takes in [for i := 0; i < n; i++]. *)
Definition indices (n : nat) : list Z := map Z.of_nat (seq 0 n).

(** ** Package [strategy] ([strategy.go]) *)

Record CaptureOptions : Set := mkCaptureOptions {
  Monitor : Z;
  Region : option Rectangle;
  WindowID : Z;
  Display : string
}.

(** The struct [Monitor]. *)
Record Monitor_t : Set := mkMonitor {
  Index : Z;
  Name : string;
  Bounds : Rectangle
}.

(** The interface [Strategy]. *)
Record Strategy `{Host} : Type := mkStrategy {
  Strategy_Name : string;
  Strategy_Available : M bool;
  Strategy_Capture : CaptureOptions -> M (result Image);
  Strategy_ListMonitors : M (result (list Monitor_t))
}.

(** ** Package [strategy] ([x11.go]): the methods of [*X11Strategy] *)

Module X11Strategy.
Section X11.
Context `{Host}.

Definition set_originalDisplay (v : string) : M unit :=
  fun w => (tt, mkWorld (env w) v (dirs w) (open_files w) (log w)).

Definition get_originalDisplay : M string :=
  fun w => (originalDisplay w, w).

Definition Name : string := "x11".

Definition Available : M bool :=
  display ← Getenv "DISPLAY";
  _ ← (if string_eqb display "" then Setenv "DISPLAY" ":0" else mret tt);
  n ← screenshot_NumActiveDisplays;
  mret (0 <? n)%nat.

(** The function [setDisplay] returns: it reads the field when it runs. *)
Definition restoreDisplay : M unit :=
  original ← get_originalDisplay;
  if negb (string_eqb original "") then Setenv "DISPLAY" original
  else Unsetenv "DISPLAY".

Definition setDisplay (display : string) : M (M unit) :=
  if string_eqb display "" then mret (mret tt)
  else
    current ← Getenv "DISPLAY";
    _ ← set_originalDisplay current;
    _ ← Setenv "DISPLAY" display;
    mret restoreDisplay.

Definition ensureDisplay (opts : CaptureOptions) : M (M unit) :=
  if negb (string_eqb (Display opts) "") then setDisplay (Display opts)
  else
    current ← Getenv "DISPLAY";
    if string_eqb current "" then setDisplay ":0"
    else mret (mret tt).

(** One round of the loop that combines the bounds: [acc] holds [minX],
    [minY], [maxX], [maxY]. *)
Definition combine (i : Z) (bounds : Rectangle) (acc : Z * Z * Z * Z)
    : Z * Z * Z * Z :=
  let '(minX, minY, maxX, maxY) := acc in
  let minX := if (i =? 0) || (X (Min bounds) <? minX) then X (Min bounds) else minX in
  let minY := if (i =? 0) || (Y (Min bounds) <? minY) then Y (Min bounds) else minY in
  let maxX := if (i =? 0) || (maxX <? X (Max bounds)) then X (Max bounds) else maxX in
  let maxY := if (i =? 0) || (maxY <? Y (Max bounds)) then Y (Max bounds) else maxY in
  (minX, minY, maxX, maxY).

Fixpoint combine_loop (idx : list Z) (acc : Z * Z * Z * Z)
    : M (Z * Z * Z * Z) :=
  match idx with
  | [] => mret acc
  | i :: rest =>
      bounds ← screenshot_GetDisplayBounds i;
      combine_loop rest (combine i bounds acc)
  end.

(** The body of [Capture], after the [defer]. *)
Definition Capture_body (opts : CaptureOptions) : M (result Image) :=
  match Region opts with
  | Some region => screenshot_CaptureRect region
  | None =>
      n ← screenshot_NumActiveDisplays;
      if (n =? 0)%nat then
        mret (Err (errorString "no active displays found"))
      else if Monitor opts =? -1 then
        '(minX, minY, maxX, maxY) ← combine_loop (indices n) (0, 0, 0, 0);
        screenshot_CaptureRect (image_Rect minX minY maxX maxY)
      else if (Monitor opts <? 0) || (Z.of_nat n <=? Monitor opts) then
        mret (Err (errorString
          ("monitor " +:+ fmt_d (Monitor opts) +:+ " out of range (0-"
           +:+ fmt_d (Z.of_nat n - 1) +:+ ")")))
      else
        bounds ← screenshot_GetDisplayBounds (Monitor opts);
        screenshot_CaptureRect bounds
  end.

Definition Capture (opts : CaptureOptions) : M (result Image) :=
  cleanup ← ensureDisplay opts;
  r ← Capture_body opts;
  _ ← cleanup;
  mret r.

Definition zeroMonitor : Monitor_t :=
  mkMonitor 0 "" (mkRectangle (mkPoint 0 0) (mkPoint 0 0)).

(** The loop that fills [monitors]. *)
Fixpoint fill_monitors (idx : list Z) (monitors : list Monitor_t)
    : M (list Monitor_t) :=
  match idx with
  | [] => mret monitors
  | i :: rest =>
      bounds ← screenshot_GetDisplayBounds i;
      fill_monitors rest
        (<[Z.to_nat i := mkMonitor i ("Display " +:+ fmt_d i) bounds]> monitors)
  end.

Definition ListMonitors : M (result (list Monitor_t)) :=
  current ← Getenv "DISPLAY";
  _ ← (if string_eqb current "" then Setenv "DISPLAY" ":0" else mret tt);
  n ← screenshot_NumActiveDisplays;
  if (n =? 0)%nat then mret (Err (errorString "no active displays found"))
  else
    monitors ← fill_monitors (indices n) (replicate n zeroMonitor);
    mret (Ok monitors).

(** [NewX11Strategy()], seen through the interface. *)
Definition NewX11Strategy : Strategy :=
  mkStrategy _ Name Available Capture ListMonitors.

End X11.
End X11Strategy.

(** ** Calls to [os], [image/png] and [os/exec] *)

Section HostCalls.
Context `{Host}.

Definition set_dirs (f : gset string -> gset string) : M unit :=
  fun w => (tt, mkWorld (env w) (originalDisplay w) (f (dirs w))
                  (open_files w) (log w)).

Definition set_open_files (f : gset nat -> gset nat) : M unit :=
  fun w => (tt, mkWorld (env w) (originalDisplay w) (dirs w)
                  (f (open_files w)) (log w)).

Definition get_open_files : M (gset nat) := fun w => (open_files w, w).

(** [os.MkdirAll(dir, 0755)] *)
Definition os_MkdirAll (dir : string) : M (option error) :=
  _ ← emit (EvMkdirAll dir);
  match MkdirAll_error dir with
  | Some e => mret (Some e)
  | None => _ ← set_dirs (union {[dir]}); mret None
  end.

(** [os.Create(path)]: on success the file is open under a descriptor that
    was not in use. *)
Definition os_Create (path : string) : M (result nat) :=
  _ ← emit (EvCreate path);
  match Create_error path with
  | Some e => mret (Err e)
  | None =>
      used ← get_open_files;
      let fd := fresh used in
      _ ← set_open_files (union {[fd]});
      mret (Ok fd)
  end.

(** [file.Close()]: the descriptor is released whether or not an error is
    reported. *)
Definition file_Close (fd : nat) : M (option error) :=
  _ ← emit (EvClose fd);
  _ ← set_open_files (fun s => s ∖ {[fd]});
  mret (Close_error fd).

(** [png.Encoder{CompressionLevel: level}.Encode(sink, img)] *)
Definition png_Encode (sink : Sink) (level : CompressionLevel) (img : Image)
    : M (option error) :=
  _ ← emit (EvEncode sink level);
  mret (Encode_error sink level img).

Definition Print (line : string) : M unit := emit (EvPrint line).

(** [exec.Command(argv...).Start()] *)
Definition exec_Start (argv : list string) : M (option error) :=
  _ ← emit (EvStart argv);
  mret (Start_error argv).

End HostCalls.

(** ** Package [capture] *)

Module capture.
Section Capture.
Context `{Host}.

Record Capturer : Type := mkCapturer { strategies : list Strategy }.

(** What [New] does with a strategy: it is appended when it is available. *)
Definition register (s : Strategy) (c : Capturer) : M Capturer :=
  ok ← Strategy_Available s;
  mret (if ok : bool then mkCapturer (strategies c ++ [s]) else c).

Definition New : M Capturer :=
  let c := mkCapturer [] in
  let x11 := X11Strategy.NewX11Strategy in
  register x11 c.

Definition GetStrategy (c : Capturer) : result Strategy :=
  if (length (strategies c) =? 0)%nat then
    Err (errorString "no screenshot strategy available")
  else
    match strategies c with
    | s :: _ => Ok s
    | [] => Err (errorString "no screenshot strategy available")
    end.

Definition ListStrategies (c : Capturer) : list string :=
  map Strategy_Name (strategies c).

Definition intToCompressionLevel (level : Z) : CompressionLevel :=
  match level with
  | 0 => NoCompression
  | 1 => BestSpeed
  | 2 => DefaultCompression
  | 3 => BestCompression
  | _ => BestSpeed
  end.

(** The part of [SavePNG] after [defer file.Close()]; what the deferred
    [Close] returns is dropped. *)
Definition SavePNG_encode (img : Image) (fd : nat) (compressionLevel : Z)
    : M (option error) :=
  err ← png_Encode (ToFile fd) (intToCompressionLevel compressionLevel) img;
  match err with
  | Some e => mret (Some (Errorf_w "failed to encode PNG: " e))
  | None => mret None
  end.

Definition SavePNG (img : Image) (path : string) (compressionLevel : Z)
    : M (option error) :=
  let dir := filepath_Dir path in
  err ← (if negb (string_eqb dir "") && negb (string_eqb dir ".")
         then os_MkdirAll dir else mret None);
  match err with
  | Some e => mret (Some (Errorf_w "failed to create directory: " e))
  | None =>
      file ← os_Create path;
      match file with
      | Err e => mret (Some (Errorf_w "failed to create file: " e))
      | Ok fd =>
          r ← SavePNG_encode img fd compressionLevel;
          _ ← file_Close fd;
          mret r
      end
  end.

Definition GenerateFilename (prefix : string) : string :=
  let prefix := if string_eqb prefix "" then "screenshot" else prefix in
  prefix +:+ "_" +:+ timestamp +:+ ".png".

Definition WritePNG (img : Image) (w : Sink) (compressionLevel : Z)
    : M (option error) :=
  err ← png_Encode w (intToCompressionLevel compressionLevel) img;
  match err with
  | Some e => mret (Some (Errorf_w "failed to encode PNG: " e))
  | None => mret None
  end.

Definition CaptureToFile (c : Capturer) (opts : CaptureOptions)
    (outputPath : string) (compressionLevel : Z) : M (option error) :=
  match GetStrategy c with
  | Err e => mret (Some e)
  | Ok strat =>
      r ← Strategy_Capture strat opts;
      match r with
      | Err e => mret (Some (Errorf_w "capture failed: " e))
      | Ok img => SavePNG img outputPath compressionLevel
      end
  end.

Definition Capture (c : Capturer) (opts : CaptureOptions)
    : M (result Image) :=
  match GetStrategy c with
  | Err e => mret (Err e)
  | Ok strat => Strategy_Capture strat opts
  end.

Definition ListMonitors (c : Capturer) : M (result (list Monitor_t)) :=
  match GetStrategy c with
  | Err e => mret (Err e)
  | Ok strat => Strategy_ListMonitors strat
  end.

End Capture.
End capture.

(** ** Package [cmd] *)

Module cmd.
Section Cmd.
Context `{Host}.

(** The flags, as cobra leaves them after parsing the command line. *)
Record Flags : Set := mkFlags {
  monitor : Z;
  region : string;
  output : string;
  display : string;
  listMon : bool;
  compressLevel : Z;
  raw : bool;
  view : bool;
  stdout : bool
}.

Definition openFile (path : string) : M (option error) :=
  if string_eqb GOOS "linux" then exec_Start ["xdg-open"; path]
  else if string_eqb GOOS "darwin" then exec_Start ["open"; path]
  else if string_eqb GOOS "windows" then
    exec_Start ["cmd"; "/c"; "start"; ""; path]
  else mret (Some (errorString ("unsupported platform: " +:+ GOOS))).

Definition monitor_line (m : Monitor_t) : string :=
  "  " +:+ fmt_d (Index m) +:+ ": " +:+ Name m +:+ " ("
  +:+ fmt_d (Dx (Bounds m)) +:+ "x" +:+ fmt_d (Dy (Bounds m)) +:+ " at "
  +:+ fmt_d (X (Min (Bounds m))) +:+ "," +:+ fmt_d (Y (Min (Bounds m)))
  +:+ ")".

Fixpoint print_monitors (ms : list Monitor_t) : M unit :=
  match ms with
  | [] => mret tt
  | m :: rest => _ ← Print (monitor_line m); print_monitors rest
  end.

Definition listMonitors (capturer : capture.Capturer) : M (option error) :=
  r ← capture.ListMonitors capturer;
  match r with
  | Err e => mret (Some e)
  | Ok monitors =>
      _ ← Print ("Available monitors ("
                 +:+ fmt_d (Z.of_nat (length monitors)) +:+ "):");
      _ ← print_monitors monitors;
      mret None
  end.

(** The loop of [parseRegion] over the parts: the first part that does not
    parse ends it with "invalid number: <part>". *)
Fixpoint parse_vals (parts : list string) : result (list Z) :=
  match parts with
  | [] => Ok []
  | p :: rest =>
      match Atoi (TrimSpace p) with
      | None => Err (errorString ("invalid number: " +:+ p))
      | Some v =>
          match parse_vals rest with
          | Ok vs => Ok (v :: vs)
          | Err e => Err e
          end
      end
  end.

Definition parseRegion (s : string) : result Rectangle :=
  let parts := Split_comma s in
  if negb (Nat.eqb (length parts) 4) then
    Err (errorString "expected x,y,width,height")
  else
    match parse_vals parts with
    | Err e => Err e
    | Ok [x; y; w; h] => Ok (image_Rect x y (int_add x w) (int_add y h))
    | Ok _ => Err (errorString "expected x,y,width,height")
    end.

Definition getCompressionLevel (f : Flags) : Z :=
  if raw f then 0
  else if compressLevel f =? 0 then 1
  else if 3 <=? compressLevel f then 3
  else compressLevel f.

(** The part of [run] that follows the parsing of the region. *)
Definition run_capture (f : Flags) (capturer : capture.Capturer)
    (outputPath : string) (opts : CaptureOptions) : M (option error) :=
  let level := getCompressionLevel f in
  if stdout f then
    r ← capture.Capture capturer opts;
    match r with
    | Err e => mret (Some (Errorf_w "capture failed: " e))
    | Ok img => capture.WritePNG img ToStdout level
    end
  else
    err ← capture.CaptureToFile capturer opts outputPath level;
    match err with
    | Some e => mret (Some e)
    | None =>
        _ ← Print ("Screenshot saved: " +:+ outputPath);
        if view f then
          err ← openFile outputPath;
          match err with
          | Some e => mret (Some (Errorf_w "failed to open viewer: " e))
          | None => mret None
          end
        else mret None
    end.

Definition run (f : Flags) (args : list string) : M (option error) :=
  capturer ← capture.New;
  if listMon f then listMonitors capturer
  else
    let outputPath := match args with a :: _ => a | [] => output f end in
    let outputPath :=
      if string_eqb outputPath "" then capture.GenerateFilename "screenshot"
      else outputPath in
    let opts := mkCaptureOptions (monitor f) None 0 (display f) in
    if negb (string_eqb (region f) "") then
      match parseRegion (region f) with
      | Err e => mret (Some (Errorf_w "invalid region: " e))
      | Ok rect =>
          run_capture f capturer outputPath
            (mkCaptureOptions (monitor f) (Some rect) 0 (display f))
      end
    else run_capture f capturer outputPath opts.

End Cmd.
End cmd.

(** ** Definitions used to state the properties *)

Section Statements.
Context `{Host}.

(** Registration of several candidates, in order, each the way [New]
    registers the X11 strategy. *)
Fixpoint registerAll (cands : list Strategy) (c : capture.Capturer)
    : M capture.Capturer :=
  match cands with
  | [] => mret c
  | s :: rest => c' ← capture.register s c; registerAll rest c'
  end.

(** The first candidate, in order, whose availability check succeeds; the
    checks run in order and each sees the effects of those before it. *)
Fixpoint first_available (cands : list Strategy) (w : World)
    : option Strategy :=
  match cands with
  | [] => None
  | s :: rest =>
      let '(ok, w') := Strategy_Available s w in
      if ok then Some s else first_available rest w'
  end.

(** The four numbers the loop of [Capture] ends with. *)
Definition combined (t : string) (n : nat) : Z * Z * Z * Z :=
  fold_left (fun a i => X11Strategy.combine i (GetDisplayBounds t i) a)
    (indices n) (0, 0, 0, 0).

Definition combined_rect (t : string) (n : nat) : Rectangle :=
  let '(minX, minY, maxX, maxY) := combined t n in
  image_Rect minX minY maxX maxY.

End Statements.


(** Bytes of a string, and the classes of bytes the statements speak of. *)
Definition chars (s : string) : list ascii := list_ascii_of_string s.

Definition is_digit (c : ascii) : bool :=
  let n := N_of_ascii c in N.leb 48 n && N.leb n 57.

(** A digit or the minus sign: the bytes [%d] produces. *)
Definition numeric (c : ascii) : bool := is_digit c || byte_is c 45.

Definition is_comma (c : ascii) : bool := Ascii.eqb c ",".

(** An ASCII byte that is not white space. *)
Definition plain (c : ascii) : bool :=
  N.ltb (N_of_ascii c) 128 && negb (asciiSpace c).

(** A decimal integer the way it can be written in a region: digits, with
    an optional sign in front. *)
Inductive int_literal : string -> Z -> Prop :=
  | literal_unsigned (d : Decimal.uint) :
      d <> Decimal.Nil ->
      int_literal (NilEmpty.string_of_uint d) (Z.of_uint d)
  | literal_plus (d : Decimal.uint) :
      d <> Decimal.Nil ->
      int_literal (String "+" (NilEmpty.string_of_uint d)) (Z.of_uint d)
  | literal_minus (d : Decimal.uint) :
      d <> Decimal.Nil ->
      int_literal (String "-" (NilEmpty.string_of_uint d)) (- Z.of_uint d).

(** A component of a region that denotes the [int] [v]: an integer literal,
    possibly with white space around it. *)
Definition int_component (p : string) (v : Z) : Prop :=
  int_literal (TrimSpace p) v /\ in_int v.


(** The rectangles asked of [CaptureRect], with the display addressed. *)
Definition capture_request (e : Event) : option (string * Rectangle) :=
  match e with
  | EvCaptureRect target r => Some (target, r)
  | _ => None
  end.

Definition captures (l : list Event) : list (string * Rectangle) :=
  omap capture_request l.


(** The world after some more calls to the outside. *)
Definition with_log (w : World) (evs : list Event) : World :=
  mkWorld (env w) (originalDisplay w) (dirs w) (open_files w) (log w ++ evs).

(** The display a call addresses: the override when there is one, else the
    ambient target, else ":0". *)
Definition target (override : string) (e : gmap string string) : string :=
  if string_eqb override "" then
    if string_eqb (getenv e "DISPLAY") "" then ":0" else getenv e "DISPLAY"
  else override.

(** What [Capture] leaves of the environment [e] it was called in. *)
Definition restored (e : gmap string string) : gmap string string :=
  if string_eqb (getenv e "DISPLAY") "" then delete "DISPLAY" e else e.

(** Whether [Capture] sets the display target, and with it the field
    [originalDisplay]. *)
Definition sets_display (opts : CaptureOptions) (e : gmap string string)
    : bool :=
  negb (string_eqb (Display opts) "") || string_eqb (getenv e "DISPLAY") "".

(** The entry [listMonitors] reports for display [i] of [t]. *)
Definition monitor_entry `{Host} (t : string) (i : Z) : Monitor_t :=
  mkMonitor i ("Display " +:+ fmt_d i) (GetDisplayBounds t i).







(** A world in which nothing has happened yet. *)
Definition fresh_world (e : gmap string string) : World :=
  mkWorld e "" ∅ ∅ [].

(** ** A small host for the examples: the display ":0" has two full-HD
    screens side by side, every other display cannot be reached. *)

Definition demo_bounds (i : Z) : Rectangle :=
  if i =? 0 then mkRectangle (mkPoint 0 0) (mkPoint 1920 1080)
  else if i =? 1 then mkRectangle (mkPoint 1920 0) (mkPoint 3840 1080)
  else mkRectangle (mkPoint 0 0) (mkPoint 0 0).

Definition demo_host : Host := {|
  Image := Rectangle;
  NumActiveDisplays := fun target => if string_eqb target ":0" then 2%nat else 0%nat;
  GetDisplayBounds := fun target i =>
    if string_eqb target ":0" then demo_bounds i
    else mkRectangle (mkPoint 0 0) (mkPoint 0 0);
  CaptureRect := fun target r =>
    if string_eqb target ":0" then Ok r
    else Err (errorString "cannot open display");
  filepath_Dir := fun path => if string_eqb path "shots/a.png" then "shots" else ".";
  MkdirAll_error := fun dir => None;
  Create_error := fun path =>
    if string_eqb path "" then Some (errorString "open : no such file or directory")
    else None;
  Encode_error := fun _ _ _ => None;
  Close_error := fun _ => None;
  timestamp := "2024-01-02_03-04-05";
  GOOS := "linux";
  Start_error := fun _ => None
|}.



(** Flags for a capture to the standard output of the given region. *)
Definition demo_flags (region : string) : cmd.Flags :=
  cmd.mkFlags (-1) region "" "" false 0 false false true.

(** ** Further definitions used to state properties *)

(** The display an outside call addresses, for the calls that address one. *)
Definition event_target (e : Event) : option string :=
  match e with
  | EvNumActiveDisplays t | EvGetDisplayBounds t _ | EvCaptureRect t _ => Some t
  | _ => None
  end.

(** The number of commas in a string. *)
Fixpoint count_commas (s : string) : nat :=
  match s with
  | EmptyString => 0%nat
  | String c r => ((if is_comma c then 1 else 0) + count_commas r)%nat
  end.

(** The parts put back together with a comma between them. *)
Fixpoint join_comma (parts : list string) : string :=
  match parts with
  | [] => ""
  | [p] => p
  | p :: rest => p +:+ String "," (join_comma rest)
  end.

(** The environment once the availability check has run. *)
Definition with_default_display (e : gmap string string)
    : gmap string string :=
  if string_eqb (getenv e "DISPLAY") "" then <["DISPLAY":=":0"]> e else e.

(** The path [run] saves to. *)
Definition output_path `{Host} (f : cmd.Flags) (args : list string) : string :=
  let outputPath := match args with a :: _ => a | [] => cmd.output f end in
  if string_eqb outputPath "" then capture.GenerateFilename "screenshot"
  else outputPath.

(** A call to the screenshot library. *)
Definition screen_event (e : Event) : Prop := is_Some (event_target e).

(** A call that makes the directory of [path], or creates, fills or closes
    the file at [path]. *)
Definition file_event `{Host} (path : string) (e : Event) : Prop :=
  match e with
  | EvMkdirAll d => d = filepath_Dir path
  | EvCreate q => q = path
  | EvEncode (ToFile _) _ | EvClose _ => True
  | _ => False
  end.

(** What a run that writes to the standard output may do. *)
Definition stdout_event (e : Event) : Prop :=
  screen_event e \/ exists level, e = EvEncode ToStdout level.

(** What a run that saves to [path] may do. *)
Definition save_event `{Host} (f : cmd.Flags) (path : string) (e : Event)
    : Prop :=
  screen_event e \/ file_event path e
  \/ e = EvPrint ("Screenshot saved: " +:+ path)
  \/ (cmd.view f = true /\ exists argv, e = EvStart (argv ++ [path])).

(** A registry as [New] builds them: empty, or led by the X11 strategy. *)
Definition x11_registry `{Host} (c : capture.Capturer) : Prop :=
  capture.strategies c = []
  \/ exists l, capture.strategies c = X11Strategy.NewX11Strategy :: l.

(** [w'] is [w] after calls that all satisfy [P]; the environment and the
    open files are the same. *)
Definition advances (P : Event -> Prop) (w w' : World) : Prop :=
  env w' = env w /\ open_files w' = open_files w /\
  exists evs, log w' = (log w ++ evs)%list /\ Forall P evs.

(** Flags for a capture saved to a file, with [-o out.png] and [-v]. *)
Definition save_flags (display : string) : cmd.Flags :=
  cmd.mkFlags (-1) "" "out.png" display false 0 false true false.

(** Flags for listing the monitors. *)
Definition list_flags : cmd.Flags :=
  cmd.mkFlags (-1) "" "" "" true 0 false false false.

(** A host whose files cannot be closed without an error. *)
Definition failing_close_host : Host := {|
  Image := Rectangle;
  NumActiveDisplays := fun _ => 1%nat;
  GetDisplayBounds := fun _ _ => mkRectangle (mkPoint 0 0) (mkPoint 800 600);
  CaptureRect := fun _ r => Ok r;
  filepath_Dir := fun _ => ".";
  MkdirAll_error := fun _ => None;
  Create_error := fun _ => None;
  Encode_error := fun _ _ _ => None;
  Close_error := fun _ => Some (errorString "close: input/output error");
  timestamp := "2024-01-02_03-04-05";
  GOOS := "linux";
  Start_error := fun _ => None
|}.

(** * Properties *)

(** Unfolds the sequencing of computations. *)
Ltac step_m :=
  unfold mbind, mret, M_bind, M_ret, Getenv, Setenv, Unsetenv, set_env, emit;
  cbn [fst snd env originalDisplay dirs open_files log].

(** ** Examples *)

Example parseRegion_readme :
  cmd.parseRegion "100,100,500,400" = Ok (image_Rect 100 100 600 500).
Proof. vm_compute. reflexivity. Qed.

Example parseRegion_spaces :
  cmd.parseRegion " 0, 0 ,-5,0" = Ok (image_Rect (-5) 0 0 0).
Proof. vm_compute. reflexivity. Qed.

Example parseRegion_three_parts :
  cmd.parseRegion "1,2,3" = Err (errorString "expected x,y,width,height").
Proof. vm_compute. reflexivity. Qed.

Example parseRegion_too_large :
  cmd.parseRegion "9223372036854775808,0,1,1"
  = Err (errorString "invalid number: 9223372036854775808").
Proof. vm_compute. reflexivity. Qed.

Example Atoi_examples :
  Atoi "-9223372036854775808" = Some minInt /\ Atoi "+007" = Some 7 /\
  Atoi "-" = None /\ Atoi "" = None /\ Atoi "1_0" = None /\ Atoi "0x10" = None.
Proof. vm_compute. auto 10. Qed.

Example fmt_d_examples : fmt_d (-120) = "-120" /\ fmt_d 0 = "0".
Proof. vm_compute. auto. Qed.

Example GenerateFilename_default :
  @capture.GenerateFilename demo_host "" = "screenshot_2024-01-02_03-04-05.png".
Proof. vm_compute. reflexivity. Qed.

Example list_on_demo_host :
  (@cmd.run demo_host
     (cmd.mkFlags (-1) "" "" "" true 0 false false false) []
     (fresh_world ∅)).1 = None /\
  log (@cmd.run demo_host
         (cmd.mkFlags (-1) "" "" "" true 0 false false false) []
         (fresh_world ∅)).2
  = [EvNumActiveDisplays ":0"; EvNumActiveDisplays ":0";
     EvGetDisplayBounds ":0" 0; EvGetDisplayBounds ":0" 1;
     EvPrint "Available monitors (2):";
     EvPrint "  0: Display 0 (1920x1080 at 0,0)";
     EvPrint "  1: Display 1 (1920x1080 at 1920,0)"].
Proof. vm_compute. auto. Qed.

(** ** Compression levels *)

(** C8: the level mapping is defined on every integer; 0 is no compression,
    1 the fastest compressed mode, 2 the default, 3 the best compression, and
    every integer below 0 or above 3 gives the fastest compressed mode. *)
Theorem intToCompressionLevel_total :
  capture.intToCompressionLevel 0 = NoCompression /\
  capture.intToCompressionLevel 1 = BestSpeed /\
  capture.intToCompressionLevel 2 = DefaultCompression /\
  capture.intToCompressionLevel 3 = BestCompression /\
  forall level : Z, level < 0 \/ 3 < level ->
    capture.intToCompressionLevel level = BestSpeed.
Proof.
  repeat split.
  intros level Hlevel.
  destruct level as [|p|p]; [lia| |reflexivity].
  destruct p as [[q|q|]|[q|q|]|]; try reflexivity; lia.
Qed.

Lemma intToCompressionLevel_total_witness :
  (-1 < 0 \/ 3 < -1) /\ capture.intToCompressionLevel (-1) = BestSpeed
  /\ capture.intToCompressionLevel 4 = BestSpeed.
Proof.
  pose proof intToCompressionLevel_total as (_ & _ & _ & _ & Hclamp).
  split; [lia|].
  split; apply Hclamp; lia.
Defined.

(** ** Strategy registry *)

Section Registry.
Context `{Host}.

Lemma GetStrategy_cons (s : Strategy) (l : list Strategy) :
  capture.GetStrategy (capture.mkCapturer (s :: l)) = Ok s.
Proof. reflexivity. Qed.

Lemma GetStrategy_app (c : capture.Capturer) (s : Strategy) :
  capture.GetStrategy (capture.mkCapturer (capture.strategies c ++ [s])) =
  match capture.strategies c with
  | s0 :: _ => Ok s0
  | [] => Ok s
  end.
Proof. destruct c as [[|s0 l]]; reflexivity. Qed.

Lemma registerAll_head (cands : list Strategy) :
  forall (c : capture.Capturer) (w : World),
    capture.GetStrategy (registerAll cands c w).1 =
    match capture.strategies c with
    | s0 :: _ => Ok s0
    | [] =>
        match first_available cands w with
        | Some s => Ok s
        | None => Err (errorString "no screenshot strategy available")
        end
    end.
Proof.
  induction cands as [|s rest IH]; intros c w.
  - destruct c as [[|s0 l]]; reflexivity.
  - cbn [registerAll first_available].
    unfold capture.register. step_m.
    destruct (Strategy_Available s w) as [ok w'].
    rewrite IH. destruct ok.
    + destruct c as [[|s0 l]]; reflexivity.
    + destruct c as [[|s0 l]]; reflexivity.
Qed.

Lemma New_run (w : World) :
  capture.New w =
  (if (Strategy_Available X11Strategy.NewX11Strategy w).1
   then capture.mkCapturer [X11Strategy.NewX11Strategy]
   else capture.mkCapturer [],
   (Strategy_Available X11Strategy.NewX11Strategy w).2).
Proof.
  unfold capture.New, capture.register. step_m.
  destruct (Strategy_Available _ w) as [ok w']. reflexivity.
Qed.

(** The calls on a [Capturer] go to its first strategy. *)
Lemma Capturer_delegates (s : Strategy) (l : list Strategy)
    (opts : CaptureOptions) :
  capture.Capture (capture.mkCapturer (s :: l)) opts = Strategy_Capture s opts
  /\ capture.ListMonitors (capture.mkCapturer (s :: l))
     = Strategy_ListMonitors s.
Proof. split; reflexivity. Qed.

(** C4: over the registry that registration builds from any candidates, in
    order, [GetStrategy] returns the first candidate whose availability check
    succeeded, and the "no screenshot strategy available" error when none
    did; [New] is this registration for the X11 strategy alone. *)
Theorem GetStrategy_first_available (cands : list Strategy) (w : World) :
  capture.GetStrategy (registerAll cands (capture.mkCapturer []) w).1 =
    match first_available cands w with
    | Some s => Ok s
    | None => Err (errorString "no screenshot strategy available")
    end
  /\ capture.New w =
     registerAll [X11Strategy.NewX11Strategy] (capture.mkCapturer []) w.
Proof.
  split.
  - rewrite registerAll_head. reflexivity.
  - unfold capture.New. cbn [registerAll]. unfold capture.register.
    step_m. destruct (Strategy_Available _ w) as [ok w']. reflexivity.
Qed.

End Registry.

(** ** Strings and numbers *)

Lemma numeric_plain (c : ascii) : numeric c = true -> plain c = true.
Proof.
  destruct c as [[|] [|] [|] [|] [|] [|] [|] [|]]; vm_compute; congruence.
Qed.

Lemma numeric_not_comma (c : ascii) : numeric c = true -> is_comma c = false.
Proof.
  destruct c as [[|] [|] [|] [|] [|] [|] [|] [|]]; vm_compute; congruence.
Qed.

Lemma digit_numeric (c : ascii) : is_digit c = true -> numeric c = true.
Proof. unfold numeric. intros ->. reflexivity. Qed.

Lemma digit_not_sign (c : ascii) :
  is_digit c = true -> Ascii.eqb c "-" = false /\ Ascii.eqb c "+" = false.
Proof.
  destruct c as [[|] [|] [|] [|] [|] [|] [|] [|]]; vm_compute; auto; congruence.
Qed.

Lemma string_of_uint_digits (d : Decimal.uint) :
  Forall (fun c => is_digit c = true) (chars (NilEmpty.string_of_uint d)).
Proof.
  induction d; cbn; constructor; auto.
Qed.

Lemma NilZero_string_of_uint_digits (d : Decimal.uint) :
  Forall (fun c => is_digit c = true) (chars (NilZero.string_of_uint d)).
Proof.
  destruct d; try apply (string_of_uint_digits (_ _)).
  cbn. constructor; auto.
Qed.

Lemma NilZero_string_of_uint_nonempty (d : Decimal.uint) :
  exists c r, NilZero.string_of_uint d = String c r.
Proof. destruct d; cbn; eauto. Qed.

Lemma fmt_d_numeric (z : Z) :
  Forall (fun c => numeric c = true) (chars (fmt_d z)).
Proof.
  unfold fmt_d.
  destruct (Z.to_int z) as [d|d]; cbn [NilZero.string_of_int].
  - eapply Forall_impl; [apply NilZero_string_of_uint_digits|].
    apply digit_numeric.
  - cbn. constructor; [reflexivity|].
    eapply Forall_impl; [apply NilZero_string_of_uint_digits|].
    apply digit_numeric.
Qed.

Lemma Atoi_digits_of_uint (d : Decimal.uint) :
  d <> Decimal.Nil ->
  Atoi_digits (NilZero.string_of_uint d) = Some (Z.of_N (N.of_uint d)).
Proof.
  intros Hd. unfold Atoi_digits. rewrite NilZero.usu by assumption.
  reflexivity.
Qed.

Lemma Atoi_unsigned (s : string) (v : Z) :
  Forall (fun c => is_digit c = true) (chars s) ->
  Atoi_digits s = Some v -> in_int v -> Atoi s = Some v.
Proof.
  intros Hs Hv Hr. destruct s as [|c r].
  - discriminate Hv.
  - inversion Hs as [|? ? Hc _]; subst.
    destruct (digit_not_sign c Hc) as [Hm Hp].
    cbn [Atoi]. rewrite Hm, Hp, Hv. cbn.
    unfold in_int in Hr. unfold in_intb.
    destruct (Z.leb_spec minInt v); [|lia].
    destruct (Z.leb_spec v maxInt); [|lia]. reflexivity.
Qed.

(** Parsing what [%d] printed gives the number back. *)
Lemma Atoi_fmt_d (z : Z) : in_int z -> Atoi (fmt_d z) = Some z.
Proof.
  intros Hz. destruct z as [|p|p].
  - reflexivity.
  - unfold fmt_d. cbn [Z.to_int NilZero.string_of_int].
    apply Atoi_unsigned; [apply NilZero_string_of_uint_digits| |assumption].
    rewrite Atoi_digits_of_uint by apply DecimalPos.Unsigned.to_uint_nonnil.
    unfold N.of_uint. rewrite DecimalPos.Unsigned.of_to. reflexivity.
  - unfold fmt_d. cbn [Z.to_int NilZero.string_of_int Atoi].
    replace (Ascii.eqb "-" "-") with true by reflexivity.
    rewrite Atoi_digits_of_uint by apply DecimalPos.Unsigned.to_uint_nonnil.
    unfold N.of_uint. rewrite DecimalPos.Unsigned.of_to. cbn.
    change (- Z.pos p) with (Z.neg p).
    unfold in_int in Hz. unfold in_intb.
    destruct (Z.leb_spec minInt (Z.neg p)); [|lia].
    destruct (Z.leb_spec (Z.neg p) maxInt); [|lia]. reflexivity.
Qed.

(** *** [Split_comma] *)

Lemma Split_comma_nonempty (s : string) : Split_comma s <> [].
Proof.
  destruct s as [|c r]; cbn; [discriminate|].
  destruct (Ascii.eqb c ","); [discriminate|].
  destruct (Split_comma r); discriminate.
Qed.

Lemma Split_comma_single (a : string) :
  Forall (fun c => is_comma c = false) (chars a) -> Split_comma a = [a].
Proof.
  induction a as [|c r IH]; intros Ha; [reflexivity|].
  inversion Ha as [|? ? Hc Hr]; subst. unfold is_comma in Hc.
  cbn. rewrite Hc, (IH Hr). reflexivity.
Qed.

Lemma append_String (c : ascii) (r t : string) :
  String c r +:+ t = String c (r +:+ t).
Proof. reflexivity. Qed.

Lemma Split_comma_app (a rest : string) :
  Forall (fun c => is_comma c = false) (chars a) ->
  Split_comma (a +:+ String "," rest) = a :: Split_comma rest.
Proof.
  induction a as [|c r IH]; intros Ha; [reflexivity|].
  inversion Ha as [|? ? Hc Hr]; subst. unfold is_comma in Hc.
  rewrite append_String. cbn. rewrite Hc, (IH Hr). reflexivity.
Qed.

(** *** [TrimSpace] *)

Lemma trim_front_keeps two three (a : ascii) (r : string) :
  asciiSpace a = false ->
  (forall b, two a b = false) -> (forall b c, three a b c = false) ->
  trim_front two three (String a r) = String a r.
Proof.
  intros Ha H2 H3. cbn. rewrite Ha.
  destruct r as [|b r1]; [reflexivity|]. rewrite H2.
  destruct r1 as [|c r2]; [reflexivity|]. rewrite H3. reflexivity.
Qed.

Lemma plain_front (a : ascii) :
  plain a = true ->
  asciiSpace a = false /\ (forall b, space2 a b = false)
  /\ (forall b c, space3 a b c = false).
Proof.
  intros Ha. split; [|split].
  - revert Ha. destruct a as [[|] [|] [|] [|] [|] [|] [|] [|]]; vm_compute; congruence.
  - intros b. unfold space2.
    replace (byte_is a 194) with false; [reflexivity|].
    revert Ha. destruct a as [[|] [|] [|] [|] [|] [|] [|] [|]]; vm_compute; congruence.
  - intros b c. unfold space3.
    replace (byte_is a 225) with false; [|
      revert Ha; destruct a as [[|] [|] [|] [|] [|] [|] [|] [|]]; vm_compute; congruence].
    replace (byte_is a 226) with false; [|
      revert Ha; destruct a as [[|] [|] [|] [|] [|] [|] [|] [|]]; vm_compute; congruence].
    replace (byte_is a 227) with false; [reflexivity|
      revert Ha; destruct a as [[|] [|] [|] [|] [|] [|] [|] [|]]; vm_compute; congruence].
Qed.

Lemma plain_back (a : ascii) :
  plain a = true ->
  (forall b, space2 b a = false) /\ (forall b c, space3 c b a = false).
Proof.
  intros Ha. split.
  - intros b. unfold space2.
    replace (byte_is a 133) with false; [|
      revert Ha; destruct a as [[|] [|] [|] [|] [|] [|] [|] [|]]; vm_compute; congruence].
    replace (byte_is a 160) with false; [apply andb_false_r|
      revert Ha; destruct a as [[|] [|] [|] [|] [|] [|] [|] [|]]; vm_compute; congruence].
  - intros b c. unfold space3.
    assert (Hlt : (N_of_ascii a < 128)%N).
    { unfold plain in Ha. apply andb_prop in Ha as [Ha _].
      now apply N.ltb_lt in Ha. }
    unfold byte_is.
    repeat match goal with
    | |- context [N.eqb (N_of_ascii a) ?k] =>
        destruct (N.eqb_spec (N_of_ascii a) k); [lia|]
    | |- context [N.leb 128 (N_of_ascii a)] =>
        destruct (N.leb_spec 128 (N_of_ascii a)); [lia|]
    end.
    cbn. rewrite !andb_false_r. reflexivity.
Qed.

Lemma string_rev_involutive (s : string) : string_rev (string_rev s) = s.
Proof.
  unfold string_rev.
  rewrite list_ascii_of_string_of_list_ascii, rev_involutive.
  apply string_of_list_ascii_of_string.
Qed.

Lemma TrimSpace_plain (s : string) :
  Forall (fun c => plain c = true) (chars s) -> TrimSpace s = s.
Proof.
  intros Hs. destruct s as [|a r]; [reflexivity|].
  unfold TrimSpace, TrimLeft, TrimRight.
  inversion Hs as [|? ? Ha Hr]; subst.
  destruct (plain_front a Ha) as (H1 & H2 & H3).
  rewrite trim_front_keeps by assumption.
  assert (Hrev : exists a' r', string_rev (String a r) = String a' r'
                               /\ plain a' = true).
  { unfold string_rev.
    assert (Hall : Forall (fun c => plain c = true)
                     (rev (list_ascii_of_string (String a r)))).
    { apply Forall_rev. exact Hs. }
    destruct (rev (list_ascii_of_string (String a r))) as [|a' l'] eqn:E.
    - apply (f_equal (@length ascii)) in E. rewrite length_rev in E.
      discriminate E.
    - inversion Hall; subst. cbn. eauto. }
  destruct Hrev as (a' & r' & E & Ha').
  destruct (plain_front a' Ha') as (H1' & _ & _).
  destruct (plain_back a' Ha') as (H2' & H3').
  rewrite E.
  rewrite trim_front_keeps; [|assumption|intros b; apply H2'|intros b c; apply H3'].
  rewrite <- E. apply string_rev_involutive.
Qed.

Lemma TrimSpace_fmt_d (z : Z) : TrimSpace (fmt_d z) = fmt_d z.
Proof.
  apply TrimSpace_plain.
  eapply Forall_impl; [apply fmt_d_numeric|]. apply numeric_plain.
Qed.

Lemma fmt_d_no_comma (z : Z) :
  Forall (fun c => is_comma c = false) (chars (fmt_d z)).
Proof.
  eapply Forall_impl; [apply fmt_d_numeric|]. apply numeric_not_comma.
Qed.

(** ** Regions *)

Lemma in_intb_true (v : Z) : in_int v -> in_intb v = true.
Proof.
  unfold in_int, in_intb. intros [H1 H2].
  apply andb_true_intro. split; apply Z.leb_le; assumption.
Qed.

Lemma string_of_uint_NilZero (d : Decimal.uint) :
  d <> Decimal.Nil -> NilEmpty.string_of_uint d = NilZero.string_of_uint d.
Proof. destruct d; [congruence|reflexivity..]. Qed.

Lemma Atoi_literal (s : string) (v : Z) :
  int_literal s v -> in_int v -> Atoi s = Some v.
Proof.
  intros Hlit Hv. destruct Hlit as [d Hd|d Hd|d Hd].
  - rewrite string_of_uint_NilZero by assumption.
    apply Atoi_unsigned; [apply NilZero_string_of_uint_digits| |assumption].
    apply Atoi_digits_of_uint. assumption.
  - cbn [Atoi]. replace (Ascii.eqb "+" "-") with false by reflexivity.
    replace (Ascii.eqb "+" "+") with true by reflexivity.
    rewrite string_of_uint_NilZero, Atoi_digits_of_uint by assumption.
    cbn. change (Z.of_N (N.of_uint d)) with (Z.of_uint d).
    rewrite (in_intb_true _ Hv). reflexivity.
  - cbn [Atoi]. replace (Ascii.eqb "-" "-") with true by reflexivity.
    rewrite string_of_uint_NilZero, Atoi_digits_of_uint by assumption.
    cbn. change (Z.of_N (N.of_uint d)) with (Z.of_uint d).
    rewrite (in_intb_true _ Hv). reflexivity.
Qed.

Lemma Atoi_component (p : string) (v : Z) :
  int_component p v -> Atoi (TrimSpace p) = Some v.
Proof. intros [Hlit Hv]. apply Atoi_literal; assumption. Qed.

Lemma image_Rect_canonical (x0 y0 x1 y1 : Z) :
  canonical (image_Rect x0 y0 x1 y1).
Proof.
  unfold canonical, image_Rect.
  destruct (Z.ltb_spec x1 x0), (Z.ltb_spec y1 y0); cbn; lia.
Qed.

Lemma image_Rect_corners (x0 y0 x1 y1 : Z) :
  let r := image_Rect x0 y0 x1 y1 in
  X (Min r) = Z.min x0 x1 /\ X (Max r) = Z.max x0 x1 /\
  Y (Min r) = Z.min y0 y1 /\ Y (Max r) = Z.max y0 y1.
Proof.
  unfold image_Rect.
  destruct (Z.ltb_spec x1 x0), (Z.ltb_spec y1 y0); cbn; lia.
Qed.

Lemma parseRegion_parts (s a b c d : string) (x y w h : Z) :
  Split_comma s = [a; b; c; d] ->
  Atoi (TrimSpace a) = Some x -> Atoi (TrimSpace b) = Some y ->
  Atoi (TrimSpace c) = Some w -> Atoi (TrimSpace d) = Some h ->
  cmd.parseRegion s = Ok (image_Rect x y (int_add x w) (int_add y h)).
Proof.
  intros Hs Ha Hb Hc Hd. unfold cmd.parseRegion. rewrite Hs.
  cbn. rewrite Ha, Hb, Hc, Hd. reflexivity.
Qed.



Lemma parse_vals_length (parts : list string) (vs : list Z) :
  cmd.parse_vals parts = Ok vs -> length vs = length parts.
Proof.
  revert vs. induction parts as [|p rest IH]; cbn; intros vs.
  - intros [= <-]. reflexivity.
  - destruct (Atoi (TrimSpace p)); [|discriminate].
    destruct (cmd.parse_vals rest) as [vs'|]; [|discriminate].
    intros [= <-]. cbn. f_equal. apply IH. reflexivity.
Qed.


(** C10: a string whose four comma-separated components are [int]s is
    accepted whatever the sign of the width and the height; the rectangle is
    the canonical one spanned by [x], [x+w] and [y], [y+h], so that a negative
    width or height swaps the corners. *)
Theorem parseRegion_four_ints (s a b c d : string) (x y w h : Z) :
  Split_comma s = [a; b; c; d] ->
  int_component a x -> int_component b y ->
  int_component c w -> int_component d h ->
  exists r,
    cmd.parseRegion s = Ok r /\ canonical r /\
    X (Min r) = Z.min x (int_add x w) /\ X (Max r) = Z.max x (int_add x w) /\
    Y (Min r) = Z.min y (int_add y h) /\ Y (Max r) = Z.max y (int_add y h).
Proof.
  intros Hs Ha Hb Hc Hd.
  exists (image_Rect x y (int_add x w) (int_add y h)).
  split; [|split].
  - apply (parseRegion_parts s a b c d); auto using Atoi_component.
  - apply image_Rect_canonical.
  - apply image_Rect_corners.
Qed.

Lemma parseRegion_four_ints_witness :
  exists r,
    cmd.parseRegion "10, 20,-5,+0" = Ok r /\ canonical r /\
    X (Min r) = 5 /\ X (Max r) = 10 /\ Y (Min r) = 20 /\ Y (Max r) = 20.
Proof.
  apply (parseRegion_four_ints "10, 20,-5,+0" "10" " 20" "-5" "+0" 10 20 (-5) 0).
  - reflexivity.
  - split; [|vm_compute; intuition discriminate].
    apply (literal_unsigned (Decimal.D1 (Decimal.D0 Decimal.Nil))). discriminate.
  - split; [|vm_compute; intuition discriminate].
    apply (literal_unsigned (Decimal.D2 (Decimal.D0 Decimal.Nil))). discriminate.
  - split; [|vm_compute; intuition discriminate].
    apply (literal_minus (Decimal.D5 Decimal.Nil)). discriminate.
  - split; [|vm_compute; intuition discriminate].
    apply (literal_plus (Decimal.D0 Decimal.Nil)). discriminate.
Defined.

(** What [%d] prints is an integer literal, so every four [int]s joined by
    commas are accepted. *)
Lemma fmt_d_component (z : Z) : in_int z -> int_component (fmt_d z) z.
Proof.
  intros Hz. split; [|assumption]. rewrite TrimSpace_fmt_d.
  unfold fmt_d. destruct z as [|p|p]; cbn [Z.to_int NilZero.string_of_int].
  - apply (literal_unsigned (Decimal.D0 Decimal.Nil)). discriminate.
  - rewrite <- string_of_uint_NilZero by apply DecimalPos.Unsigned.to_uint_nonnil.
    replace (Z.pos p) with (Z.of_uint (Pos.to_uint p)).
    + constructor. apply DecimalPos.Unsigned.to_uint_nonnil.
    + unfold Z.of_uint. rewrite DecimalPos.Unsigned.of_to. reflexivity.
  - rewrite <- string_of_uint_NilZero by apply DecimalPos.Unsigned.to_uint_nonnil.
    replace (Z.neg p) with (- Z.of_uint (Pos.to_uint p)).
    + constructor. apply DecimalPos.Unsigned.to_uint_nonnil.
    + unfold Z.of_uint. rewrite DecimalPos.Unsigned.of_to. reflexivity.
Qed.

Lemma comma_append (t : string) : "," +:+ t = String "," t.
Proof. reflexivity. Qed.

Lemma Split_comma_four (a b c d : string) :
  Forall (fun ch => is_comma ch = false) (chars a) ->
  Forall (fun ch => is_comma ch = false) (chars b) ->
  Forall (fun ch => is_comma ch = false) (chars c) ->
  Forall (fun ch => is_comma ch = false) (chars d) ->
  Split_comma (a +:+ "," +:+ b +:+ "," +:+ c +:+ "," +:+ d) = [a; b; c; d].
Proof.
  intros Ha Hb Hc Hd.
  rewrite !comma_append, !Split_comma_app by assumption.
  rewrite Split_comma_single by assumption. reflexivity.
Qed.

Lemma parseRegion_fmt_d (x y w h : Z) :
  in_int x -> in_int y -> in_int w -> in_int h ->
  cmd.parseRegion (fmt_d x +:+ "," +:+ fmt_d y +:+ "," +:+ fmt_d w +:+ ","
                   +:+ fmt_d h)
  = Ok (image_Rect x y (int_add x w) (int_add y h)).
Proof.
  intros Hx Hy Hw Hh.
  apply (parseRegion_parts _ (fmt_d x) (fmt_d y) (fmt_d w) (fmt_d h)).
  - apply Split_comma_four; apply fmt_d_no_comma.
  - apply Atoi_component, fmt_d_component, Hx.
  - apply Atoi_component, fmt_d_component, Hy.
  - apply Atoi_component, fmt_d_component, Hw.
  - apply Atoi_component, fmt_d_component, Hh.
Qed.

(** ** The X11 strategy *)

Section X11Facts.
Context `{Host}.

Lemma with_log_nil (w : World) : with_log w [] = w.
Proof. destruct w. unfold with_log. cbn. rewrite app_nil_r. reflexivity. Qed.

Lemma with_log_app (w : World) (a b : list Event) :
  with_log (with_log w a) b = with_log w (a ++ b).
Proof. unfold with_log. cbn. rewrite app_assoc. reflexivity. Qed.

Lemma NumActiveDisplays_run (w : World) :
  screenshot_NumActiveDisplays w =
  (NumActiveDisplays (getenv (env w) "DISPLAY"),
   with_log w [EvNumActiveDisplays (getenv (env w) "DISPLAY")]).
Proof. reflexivity. Qed.

Lemma GetDisplayBounds_run (i : Z) (w : World) :
  screenshot_GetDisplayBounds i w =
  (GetDisplayBounds (getenv (env w) "DISPLAY") i,
   with_log w [EvGetDisplayBounds (getenv (env w) "DISPLAY") i]).
Proof. reflexivity. Qed.

Lemma CaptureRect_run (r : Rectangle) (w : World) :
  screenshot_CaptureRect r w =
  (CaptureRect (getenv (env w) "DISPLAY") r,
   with_log w [EvCaptureRect (getenv (env w) "DISPLAY") r]).
Proof. reflexivity. Qed.

Lemma combine_loop_run (idx : list Z) :
  forall (acc : Z * Z * Z * Z) (w : World),
    X11Strategy.combine_loop idx acc w =
    (fold_left (fun a i =>
        X11Strategy.combine i (GetDisplayBounds (getenv (env w) "DISPLAY") i) a)
       idx acc,
     with_log w (map (EvGetDisplayBounds (getenv (env w) "DISPLAY")) idx)).
Proof.
  induction idx as [|i rest IH]; intros acc w.
  - cbn. rewrite with_log_nil. reflexivity.
  - cbn [X11Strategy.combine_loop]. unfold mbind, M_bind.
    rewrite GetDisplayBounds_run, IH. cbn [env with_log map fold_left].
    rewrite with_log_app. reflexivity.
Qed.

(** The body of [Capture], case by case. *)

Lemma body_region (opts : CaptureOptions) (region : Rectangle) (w : World) :
  Region opts = Some region ->
  X11Strategy.Capture_body opts w =
  (CaptureRect (getenv (env w) "DISPLAY") region,
   with_log w [EvCaptureRect (getenv (env w) "DISPLAY") region]).
Proof. intros Hr. unfold X11Strategy.Capture_body. rewrite Hr. reflexivity. Qed.

Lemma body_no_displays (opts : CaptureOptions) (w : World) :
  Region opts = None ->
  NumActiveDisplays (getenv (env w) "DISPLAY") = 0%nat ->
  X11Strategy.Capture_body opts w =
  (Err (errorString "no active displays found"),
   with_log w [EvNumActiveDisplays (getenv (env w) "DISPLAY")]).
Proof.
  intros Hr Hn. unfold X11Strategy.Capture_body. rewrite Hr.
  unfold mbind, M_bind. rewrite NumActiveDisplays_run, Hn. reflexivity.
Qed.

Lemma body_out_of_range (opts : CaptureOptions) (w : World) :
  let t := getenv (env w) "DISPLAY" in
  let n := NumActiveDisplays t in
  Region opts = None -> n <> 0%nat -> Monitor opts <> -1 ->
  Monitor opts < 0 \/ Z.of_nat n <= Monitor opts ->
  X11Strategy.Capture_body opts w =
  (Err (errorString ("monitor " +:+ fmt_d (Monitor opts)
                     +:+ " out of range (0-" +:+ fmt_d (Z.of_nat n - 1)
                     +:+ ")")),
   with_log w [EvNumActiveDisplays t]).
Proof.
  intros t n Hr Hn Hm Hout. unfold X11Strategy.Capture_body. rewrite Hr.
  unfold mbind, M_bind. rewrite NumActiveDisplays_run. fold t. fold n.
  destruct (Nat.eqb_spec n 0); [contradiction|].
  destruct (Z.eqb_spec (Monitor opts) (-1)); [contradiction|].
  destruct (Z.ltb_spec (Monitor opts) 0), (Z.leb_spec (Z.of_nat n) (Monitor opts));
    try reflexivity; lia.
Qed.

Lemma body_one_monitor (opts : CaptureOptions) (w : World) :
  let t := getenv (env w) "DISPLAY" in
  let n := NumActiveDisplays t in
  Region opts = None -> 0 <= Monitor opts < Z.of_nat n ->
  X11Strategy.Capture_body opts w =
  (CaptureRect t (GetDisplayBounds t (Monitor opts)),
   with_log w [EvNumActiveDisplays t; EvGetDisplayBounds t (Monitor opts);
               EvCaptureRect t (GetDisplayBounds t (Monitor opts))]).
Proof.
  intros t n Hr Hm. unfold X11Strategy.Capture_body. rewrite Hr.
  unfold mbind, M_bind. rewrite NumActiveDisplays_run. fold t. fold n.
  destruct (Nat.eqb_spec n 0); [lia|].
  destruct (Z.eqb_spec (Monitor opts) (-1)); [lia|].
  destruct (Z.ltb_spec (Monitor opts) 0); [lia|].
  destruct (Z.leb_spec (Z.of_nat n) (Monitor opts)); [lia|].
  cbn [orb]. rewrite GetDisplayBounds_run. cbn [env with_log]. fold t.
  rewrite CaptureRect_run. cbn [env with_log]. fold t.
  unfold with_log. cbn. rewrite <- !app_assoc. reflexivity.
Qed.

Lemma body_all_monitors (opts : CaptureOptions) (w : World) :
  let t := getenv (env w) "DISPLAY" in
  let n := NumActiveDisplays t in
  Region opts = None -> n <> 0%nat -> Monitor opts = -1 ->
  X11Strategy.Capture_body opts w =
  (CaptureRect t (combined_rect t n),
   with_log w (EvNumActiveDisplays t
               :: map (EvGetDisplayBounds t) (indices n)
               ++ [EvCaptureRect t (combined_rect t n)])).
Proof.
  intros t n Hr Hn Hm. unfold X11Strategy.Capture_body. rewrite Hr.
  unfold mbind, M_bind. rewrite NumActiveDisplays_run. fold t. fold n.
  destruct (Nat.eqb_spec n 0); [contradiction|].
  rewrite Hm. cbn [Z.eqb Pos.eqb].
  rewrite combine_loop_run. cbn [env with_log]. fold t.
  unfold combined_rect, combined.
  destruct (fold_left _ _ _) as [[[minX minY] maxX] maxY].
  rewrite CaptureRect_run. cbn [env with_log]. fold t.
  unfold with_log. cbn. rewrite <- !app_assoc. reflexivity.
Qed.

End X11Facts.

Section X11Calls.
Context `{Host}.

Lemma string_eqb_eq (a b : string) : string_eqb a b = true <-> a = b.
Proof. unfold string_eqb. apply bool_decide_eq_true. Qed.

Lemma string_eqb_neq (a b : string) : string_eqb a b = false <-> a <> b.
Proof. unfold string_eqb. apply bool_decide_eq_false. Qed.

Lemma getenv_insert (e : gmap string string) (k v : string) :
  getenv (<[k:=v]> e) k = v.
Proof. unfold getenv. rewrite lookup_insert_eq. reflexivity. Qed.

Lemma getenv_lookup (e : gmap string string) (k : string) :
  getenv e k <> "" -> e !! k = Some (getenv e k).
Proof. unfold getenv. destruct (e !! k); cbn; congruence. Qed.

Lemma setDisplay_run (d : string) (w : World) :
  d <> "" ->
  X11Strategy.setDisplay d w =
  (X11Strategy.restoreDisplay,
   mkWorld (<["DISPLAY":=d]> (env w)) (getenv (env w) "DISPLAY")
     (dirs w) (open_files w) (log w)).
Proof.
  intros Hd. unfold X11Strategy.setDisplay.
  apply string_eqb_neq in Hd. rewrite Hd. reflexivity.
Qed.

Lemma ensureDisplay_run (opts : CaptureOptions) (w : World) :
  X11Strategy.ensureDisplay opts w =
  if sets_display opts (env w) then
    (X11Strategy.restoreDisplay,
     mkWorld (<["DISPLAY":=target (Display opts) (env w)]> (env w))
       (getenv (env w) "DISPLAY") (dirs w) (open_files w) (log w))
  else (mret tt, w).
Proof.
  unfold X11Strategy.ensureDisplay, sets_display, target.
  destruct (string_eqb (Display opts) "") eqn:Ed; cbn [negb orb].
  - step_m. destruct (string_eqb (getenv (env w) "DISPLAY") "") eqn:Ee.
    + apply setDisplay_run. discriminate.
    + reflexivity.
  - apply setDisplay_run. apply string_eqb_neq. exact Ed.
Qed.

Lemma restoreDisplay_run (e : gmap string string) (d : string)
    (ds : gset string) (fs : gset nat) (l : list Event) (original : string) :
  e !! "DISPLAY" = (if string_eqb original "" then e !! "DISPLAY"
                    else Some original) ->
  X11Strategy.restoreDisplay
    (mkWorld (<["DISPLAY":=d]> e) original ds fs l) =
  (tt, mkWorld (if string_eqb original "" then delete "DISPLAY" e else e)
         original ds fs l).
Proof.
  intros He. unfold X11Strategy.restoreDisplay, X11Strategy.get_originalDisplay.
  step_m. destruct (string_eqb original "") eqn:E; cbn [negb]; step_m.
  - rewrite delete_insert_eq. reflexivity.
  - rewrite insert_insert_eq, insert_id by exact He. reflexivity.
Qed.

(** [Capture] runs its body with the display target in force and then puts
    the environment back. *)
Lemma Capture_run (opts : CaptureOptions) (w : World)
    (r : result Image) (evs : list Event) :
  (forall w1, getenv (env w1) "DISPLAY" = target (Display opts) (env w) ->
     X11Strategy.Capture_body opts w1 = (r, with_log w1 evs)) ->
  X11Strategy.Capture opts w =
  (r, mkWorld (restored (env w))
        (if sets_display opts (env w) then getenv (env w) "DISPLAY"
         else originalDisplay w)
        (dirs w) (open_files w) (log w ++ evs)).
Proof.
  intros Hbody. unfold X11Strategy.Capture.
  unfold mbind at 1. unfold M_bind at 1. rewrite ensureDisplay_run.
  destruct (sets_display opts (env w)) eqn:Es.
  - unfold mbind, M_bind, mret, M_ret.
    rewrite Hbody by (cbn; apply getenv_insert).
    unfold with_log. cbn [env originalDisplay dirs open_files log].
    rewrite restoreDisplay_run; [reflexivity|].
    destruct (string_eqb (getenv (env w) "DISPLAY") "") eqn:Ee;
      [reflexivity|].
    apply getenv_lookup. apply string_eqb_neq. exact Ee.
  - unfold sets_display in Es. apply orb_false_elim in Es as [Ed Ee].
    apply negb_false_iff in Ed.
    unfold mbind, M_bind, mret, M_ret.
    rewrite Hbody.
    + unfold with_log, restored. rewrite Ee. destruct w; reflexivity.
    + unfold target. rewrite Ed, Ee. reflexivity.
Qed.

(** [ListMonitors] *)

Lemma fill_monitors_run (idx : list Z) :
  forall (ms : list Monitor_t) (w : World),
    X11Strategy.fill_monitors idx ms w =
    (fold_left (fun l i =>
        <[Z.to_nat i := monitor_entry (getenv (env w) "DISPLAY") i]> l) idx ms,
     with_log w (map (EvGetDisplayBounds (getenv (env w) "DISPLAY")) idx)).
Proof.
  induction idx as [|i rest IH]; intros ms w.
  - cbn. rewrite with_log_nil. reflexivity.
  - cbn [X11Strategy.fill_monitors]. unfold mbind, M_bind.
    rewrite GetDisplayBounds_run, IH. cbn [env with_log map fold_left].
    rewrite with_log_app. reflexivity.
Qed.

Lemma fill_in_order {A} (f : Z -> A) (m : nat) :
  forall (k : nat) (l : list A),
    length l = (k + m)%nat ->
    fold_left (fun l i => <[Z.to_nat i := f i]> l)
      (map Z.of_nat (seq k m)) l
    = (take k l ++ map f (map Z.of_nat (seq k m)))%list.
Proof.
  induction m as [|m IH]; intros k l Hlen.
  - cbn. rewrite app_nil_r, take_ge by lia. reflexivity.
  - cbn [seq map fold_left]. rewrite Nat2Z.id.
    rewrite IH by (rewrite length_insert; lia).
    rewrite (take_S_r _ _ (f (Z.of_nat k)))
      by (apply list_lookup_insert_eq; lia).
    rewrite take_insert_ge by lia.
    rewrite <- app_assoc. reflexivity.
Qed.

Lemma ListMonitors_run (w : World) :
  let t := target "" (env w) in
  let n := NumActiveDisplays t in
  X11Strategy.ListMonitors w =
  (if (n =? 0)%nat then Err (errorString "no active displays found")
   else Ok (map (monitor_entry t) (indices n)),
   mkWorld (if string_eqb (getenv (env w) "DISPLAY") ""
            then <["DISPLAY":=":0"]> (env w) else env w)
     (originalDisplay w) (dirs w) (open_files w)
     (log w ++ EvNumActiveDisplays t
        :: (if (n =? 0)%nat then []
            else map (EvGetDisplayBounds t) (indices n)))).
Proof.
  intros t n. unfold X11Strategy.ListMonitors.
  unfold mbind at 1. unfold M_bind at 1. unfold Getenv at 1.
  assert (Ht : forall w1 : World,
    getenv (env w1) "DISPLAY" = t ->
    (n0 ← screenshot_NumActiveDisplays;
     if (n0 =? 0)%nat
     then mret (Err (errorString "no active displays found"))
     else monitors ← X11Strategy.fill_monitors (indices n0)
                        (replicate n0 X11Strategy.zeroMonitor);
          mret (Ok monitors)) w1
    = (if (n =? 0)%nat then Err (errorString "no active displays found")
       else Ok (map (monitor_entry t) (indices n)),
       with_log w1 (EvNumActiveDisplays t
        :: (if (n =? 0)%nat then []
            else map (EvGetDisplayBounds t) (indices n))))).
  { intros w1 Hw1. unfold mbind, M_bind, mret, M_ret.
    rewrite NumActiveDisplays_run, Hw1. fold n.
    destruct (n =? 0)%nat; [reflexivity|].
    rewrite fill_monitors_run. cbn [env with_log]. rewrite Hw1.
    unfold indices.
    rewrite fill_in_order by (rewrite length_replicate; lia).
    cbn [take app]. unfold with_log. cbn. rewrite <- app_assoc. reflexivity. }
  unfold target in t.
  destruct (string_eqb (getenv (env w) "DISPLAY") "") eqn:Ee.
  - unfold mbind at 1. unfold M_bind at 1. step_m.
    unfold mbind, M_bind, mret, M_ret in Ht.
    rewrite Ht by (cbn; apply getenv_insert). reflexivity.
  - unfold mbind at 1. unfold M_bind at 1. step_m.
    unfold mbind, M_bind, mret, M_ret in Ht.
    rewrite Ht by reflexivity. unfold with_log. reflexivity.
Qed.

End X11Calls.

(** ** Bounding box of all displays *)

Section BoundingBox.
Context `{Host}.







End BoundingBox.

(** ** Capture requests *)

Section CaptureClaims.
Context `{Host}.

Lemma captures_app (l l' : list Event) :
  captures (l ++ l') = (captures l ++ captures l')%list.
Proof. unfold captures. apply omap_app. Qed.

Lemma captures_GetDisplayBounds (t : string) (idx : list Z) :
  captures (map (EvGetDisplayBounds t) idx) = [].
Proof. induction idx as [|i rest IH]; [reflexivity|exact IH]. Qed.

(** Whatever the options, the body of [Capture] only adds calls to the log,
    and what it does depends on the world through the display target alone. *)
Lemma body_frame (opts : CaptureOptions) (t : string) :
  exists (r : result Image) (evs : list Event),
    forall w1, getenv (env w1) "DISPLAY" = t ->
      X11Strategy.Capture_body opts w1 = (r, with_log w1 evs).
Proof.
  destruct (Region opts) as [region|] eqn:Hr.
  { do 2 eexists. intros w1 Hw1.
    rewrite (body_region opts region) by exact Hr. rewrite Hw1. reflexivity. }
  destruct (Nat.eq_dec (NumActiveDisplays t) 0%nat) as [Hn|Hn].
  { do 2 eexists. intros w1 Hw1.
    rewrite body_no_displays by (rewrite ?Hw1; assumption).
    rewrite Hw1. reflexivity. }
  destruct (Z.eq_dec (Monitor opts) (-1)) as [Hm|Hm].
  { do 2 eexists. intros w1 Hw1.
    rewrite body_all_monitors by (rewrite ?Hw1; assumption).
    rewrite Hw1. reflexivity. }
  destruct (Z_lt_le_dec (Monitor opts) 0) as [Hlo|Hlo].
  { do 2 eexists. intros w1 Hw1.
    rewrite body_out_of_range by (rewrite ?Hw1; auto).
    rewrite Hw1. reflexivity. }
  destruct (Z_lt_le_dec (Monitor opts) (Z.of_nat (NumActiveDisplays t)))
    as [Hhi|Hhi].
  - do 2 eexists. intros w1 Hw1.
    rewrite body_one_monitor by (rewrite ?Hw1; auto).
    rewrite Hw1. reflexivity.
  - do 2 eexists. intros w1 Hw1.
    rewrite body_out_of_range by (rewrite ?Hw1; auto).
    rewrite Hw1. reflexivity.
Qed.





(** C1 (as amended): when [Capture] returns, with or without an error, the
    display target is as it was: an entry that was there with a value is there
    with that value and an unset one is unset again; only an entry that was
    set to the empty string is removed.  [ListMonitors] leaves a target that
    is set to a value alone. *)
Theorem Capture_restores_display (opts : CaptureOptions) (w : World) :
  let e' := env (X11Strategy.Capture opts w).2 in
  (env w !! "DISPLAY" <> Some "" -> e' = env w) /\
  (env w !! "DISPLAY" = Some "" -> e' = delete "DISPLAY" (env w)) /\
  (getenv (env w) "DISPLAY" <> "" ->
   env (X11Strategy.ListMonitors w).2 = env w).
Proof.
  intros e'.
  assert (He' : e' = restored (env w)).
  { unfold e'.
    destruct (body_frame opts (target (Display opts) (env w)))
      as (r & evs & Hbody).
    rewrite (Capture_run opts w r evs Hbody). reflexivity. }
  rewrite He'. unfold restored, getenv. repeat split.
  - intros Hne. destruct (env w !! "DISPLAY") as [v|] eqn:E; cbn.
    + destruct (string_eqb v "") eqn:Ev; [|reflexivity].
      apply string_eqb_eq in Ev. congruence.
    + apply delete_id. exact E.
  - intros ->. reflexivity.
  - intros Hne. rewrite ListMonitors_run. cbn [snd env].
    apply string_eqb_neq in Hne. unfold getenv. rewrite Hne. reflexivity.
Qed.

End CaptureClaims.

(** *** The properties on the example hosts *)









Lemma Capture_restores_display_witness :
  env (@X11Strategy.Capture demo_host (mkCaptureOptions (-1) None 0 ":0")
         (fresh_world {[ "DISPLAY" := ":7" ]})).2 = {[ "DISPLAY" := ":7" ]}
  /\ env (@X11Strategy.Capture demo_host (mkCaptureOptions (-1) None 0 "")
            (fresh_world ∅)).2 = ∅
  /\ env (@X11Strategy.ListMonitors demo_host
            (fresh_world {[ "DISPLAY" := ":7" ]})).2 = {[ "DISPLAY" := ":7" ]}.
Proof.
  split; [|split].
  - destruct (@Capture_restores_display demo_host
                (mkCaptureOptions (-1) None 0 ":0")
                (fresh_world {[ "DISPLAY" := ":7" ]})) as [Hkeep _].
    apply Hkeep. vm_compute. discriminate.
  - destruct (@Capture_restores_display demo_host
                (mkCaptureOptions (-1) None 0 "") (fresh_world ∅)) as [Hkeep _].
    apply Hkeep. vm_compute. discriminate.
  - destruct (@Capture_restores_display demo_host
                (mkCaptureOptions (-1) None 0 "")
                (fresh_world {[ "DISPLAY" := ":7" ]})) as [_ [_ Hlist]].
    apply Hlist. vm_compute. discriminate.
Defined.

(** C1 (as stated) fails: [ListMonitors] called with no display target leaves
    ":0" behind, and [Capture] called with the target set to the empty string
    leaves it unset. *)
Lemma display_target_left_changed :
  env (fresh_world ∅) !! "DISPLAY" = None
  /\ env (@X11Strategy.ListMonitors demo_host (fresh_world ∅)).2 !! "DISPLAY"
     = Some ":0"
  /\ env (fresh_world {[ "DISPLAY" := "" ]}) !! "DISPLAY" = Some ""
  /\ env (@X11Strategy.Capture demo_host (mkCaptureOptions (-1) None 0 "")
            (fresh_world {[ "DISPLAY" := "" ]})).2 !! "DISPLAY" = None.
Proof. vm_compute. auto. Qed.

(** ** Regions and the command *)

Section CommandClaims.
Context `{Host}.

Lemma Available_run (w : World) :
  X11Strategy.Available w =
  ((0 <? NumActiveDisplays (target "" (env w)))%nat,
   mkWorld (if string_eqb (getenv (env w) "DISPLAY") ""
            then <["DISPLAY":=":0"]> (env w) else env w)
     (originalDisplay w) (dirs w) (open_files w)
     (log w ++ [EvNumActiveDisplays (target "" (env w))])).
Proof.
  unfold X11Strategy.Available, target.
  unfold mbind at 1. unfold M_bind at 1. unfold Getenv at 1.
  destruct (string_eqb (getenv (env w) "DISPLAY") "") eqn:Ee.
  - unfold mbind, M_bind, mret, M_ret. unfold Setenv, set_env.
    rewrite NumActiveDisplays_run. cbn [env]. rewrite getenv_insert.
    reflexivity.
  - unfold mbind, M_bind, mret, M_ret.
    rewrite NumActiveDisplays_run. reflexivity.
Qed.




End CommandClaims.



(** ** Writing the file *)

Section SavePNGClaims.
Context `{Host}.

Lemma fresh_not_open (used : gset nat) : fresh used ∉ used.
Proof. apply is_fresh. Qed.

Lemma close_after_open (used : gset nat) :
  ({[fresh used]} ∪ used) ∖ {[fresh used]} = used.
Proof.
  pose proof (fresh_not_open used) as Hfresh.
  apply set_eq. intros x.
  rewrite elem_of_difference, elem_of_union, !elem_of_singleton.
  split; [intros [[Hx|Hx] Hne]; [contradiction|exact Hx]|].
  intros Hx. split; [right; exact Hx|]. intros ->. contradiction.
Qed.



End SavePNGClaims.


(** * Further properties of the code *)

(** ** Compression flags *)

(** X1: the level the flags select is always one of 0..3 when the count of
    [-c] is not negative, and the encoder setting it maps to is: none with
    [-r] whatever the count, else the fastest for a count of 0 or 1, the
    default for 2 and the best for 3 or more. *)
Theorem compression_of_flags (f : cmd.Flags) :
  0 <= cmd.compressLevel f ->
  0 <= cmd.getCompressionLevel f <= 3 /\
  capture.intToCompressionLevel (cmd.getCompressionLevel f) =
    if cmd.raw f then NoCompression
    else if cmd.compressLevel f <=? 1 then BestSpeed
    else if cmd.compressLevel f =? 2 then DefaultCompression
    else BestCompression.
Proof.
  intros Hc. unfold cmd.getCompressionLevel.
  destruct (cmd.raw f); [split; [lia|reflexivity]|].
  destruct (Z.eqb_spec (cmd.compressLevel f) 0) as [E|E].
  { rewrite E. split; [lia|reflexivity]. }
  destruct (Z.leb_spec 3 (cmd.compressLevel f)) as [E3|E3].
  { split; [lia|]. destruct (Z.leb_spec (cmd.compressLevel f) 1); [lia|].
    destruct (Z.eqb_spec (cmd.compressLevel f) 2); [lia|]. reflexivity. }
  split; [lia|].
  assert (Hcase : cmd.compressLevel f = 1 \/ cmd.compressLevel f = 2) by lia.
  destruct Hcase as [E1|E2]; [rewrite E1|rewrite E2]; reflexivity.
Qed.

Lemma compression_of_flags_witness :
  capture.intToCompressionLevel
    (cmd.getCompressionLevel (cmd.mkFlags (-1) "" "" "" false 7 true false false))
  = NoCompression /\
  capture.intToCompressionLevel
    (cmd.getCompressionLevel (cmd.mkFlags (-1) "" "" "" false 7 false false false))
  = BestCompression.
Proof.
  split.
  - apply (compression_of_flags
             (cmd.mkFlags (-1) "" "" "" false 7 true false false)). cbn. lia.
  - apply (compression_of_flags
             (cmd.mkFlags (-1) "" "" "" false 7 false false false)). cbn. lia.
Defined.

(** ** The availability check and the registry *)

Section AvailabilityFacts.
Context `{Host}.

Lemma target_nonempty (override : string) (e : gmap string string) :
  target override e <> "".
Proof.
  unfold target. destruct (string_eqb override "") eqn:Eo.
  - destruct (string_eqb (getenv e "DISPLAY") "") eqn:Ee; [discriminate|].
    apply string_eqb_neq. exact Ee.
  - apply string_eqb_neq. exact Eo.
Qed.

Lemma getenv_with_default (e : gmap string string) :
  getenv (with_default_display e) "DISPLAY" = target "" e.
Proof.
  unfold with_default_display, target.
  replace (string_eqb "" "") with true by reflexivity.
  destruct (string_eqb (getenv e "DISPLAY") ""); [apply getenv_insert|].
  reflexivity.
Qed.

Lemma target_with_default (override : string) (e : gmap string string) :
  target override (with_default_display e) =
  if string_eqb override "" then target "" e else override.
Proof.
  unfold target at 1. rewrite getenv_with_default.
  destruct (string_eqb override ""); [|reflexivity].
  pose proof (target_nonempty "" e) as Hne. apply string_eqb_neq in Hne.
  rewrite Hne. reflexivity.
Qed.

(** X2: the availability check answers whether the display it addresses (the
    ambient target, or ":0" when there is none) has a screen, and leaves the
    target set: a target with a value is untouched, a missing or empty one
    is ":0" from then on.  Asked again, it gives the same answer and changes
    nothing more in the environment. *)
Theorem Available_leaves_display_set (w : World) :
  let t := target "" (env w) in
  let w' := (X11Strategy.Available w).2 in
  (X11Strategy.Available w).1 = (0 <? NumActiveDisplays t)%nat /\
  getenv (env w') "DISPLAY" = t /\ t <> "" /\
  (getenv (env w) "DISPLAY" <> "" -> env w' = env w) /\
  (getenv (env w) "DISPLAY" = "" -> env w' = <["DISPLAY":=":0"]> (env w)) /\
  (X11Strategy.Available w').1 = (X11Strategy.Available w).1 /\
  env (X11Strategy.Available w').2 = env w'.
Proof.
  intros t w'. unfold w'. rewrite Available_run. cbn [fst snd env].
  fold (with_default_display (env w)). fold t.
  assert (Ht : getenv (with_default_display (env w)) "DISPLAY" = t)
    by apply getenv_with_default.
  split; [reflexivity|]. split; [exact Ht|].
  split; [apply target_nonempty|].
  split; [|split].
  - intros Hne. apply string_eqb_neq in Hne.
    unfold with_default_display. rewrite Hne. reflexivity.
  - intros He. unfold with_default_display. rewrite He. reflexivity.
  - rewrite Available_run. cbn [fst snd env].
    rewrite target_with_default.
    replace (string_eqb "" "") with true by reflexivity. fold t.
    split; [reflexivity|].
    rewrite Ht. pose proof (target_nonempty "" (env w)) as Hne.
    apply string_eqb_neq in Hne. fold t in Hne. rewrite Hne. reflexivity.
Qed.

(** X3: the names [ListStrategies] reports for the registry [New] builds are
    ["x11"] when the addressed display has a screen and nothing otherwise;
    for any registry, [GetStrategy] fails exactly when no name is listed and
    otherwise returns the strategy of the first name. *)
Theorem ListStrategies_of_registry (c : capture.Capturer) (w : World) :
  capture.ListStrategies (capture.New w).1 =
    (if (0 <? NumActiveDisplays (target "" (env w)))%nat then ["x11"] else [])
  /\ (capture.ListStrategies c = [] <->
      capture.GetStrategy c
      = Err (errorString "no screenshot strategy available"))
  /\ (forall s, capture.GetStrategy c = Ok s ->
        head (capture.ListStrategies c) = Some (Strategy_Name s)).
Proof.
  split; [|split].
  - rewrite New_run. cbn [fst Strategy_Available X11Strategy.NewX11Strategy].
    rewrite Available_run. cbn [fst].
    destruct (0 <? NumActiveDisplays (target "" (env w)))%nat; reflexivity.
  - destruct c as [[|s l]]; cbn; split; congruence.
  - intros s. destruct c as [[|s0 l]]; cbn; [discriminate|].
    intros [= ->]. reflexivity.
Qed.

End AvailabilityFacts.

Lemma Available_leaves_display_set_witness :
  env (@X11Strategy.Available demo_host (fresh_world ∅)).2
  = {[ "DISPLAY" := ":0" ]}.
Proof.
  destruct (@Available_leaves_display_set demo_host (fresh_world ∅))
    as (_ & _ & _ & _ & Hset & _).
  apply Hset. reflexivity.
Defined.

(** ** More on regions *)

Lemma wrap_in_int (z : Z) : in_int z -> wrap z = z.
Proof.
  unfold in_int, wrap, minInt, maxInt, intSize. intros Hz.
  change (2 ^ (64 - 1)) with 9223372036854775808 in *.
  change (2 ^ 64) with 18446744073709551616.
  rewrite Z.mod_small by lia. lia.
Qed.

Lemma wrap_above (z : Z) :
  maxInt < z <= maxInt + 2 ^ intSize -> wrap z = z - 2 ^ intSize.
Proof.
  intros Hz. unfold wrap.
  assert (Hm : (z - minInt) mod 2 ^ intSize = z - minInt - 2 ^ intSize).
  { symmetry. apply (Z.mod_unique_pos _ _ 1);
      unfold minInt, maxInt, intSize in *;
      change (2 ^ (64 - 1)) with 9223372036854775808 in *;
      change (2 ^ 64) with 18446744073709551616 in *; lia. }
  rewrite Hm. lia.
Qed.

(** X4: a region written as "x,y,width,height" with a width and a height
    that are not negative, and with [x+width] and [y+height] within [int],
    is the rectangle whose corner is [(x, y)] and whose width and height are
    the ones written. *)
Theorem parseRegion_origin_and_size (x y w h : Z) :
  in_int x -> in_int y -> in_int w -> in_int h ->
  0 <= w -> 0 <= h -> x + w <= maxInt -> y + h <= maxInt ->
  exists r,
    cmd.parseRegion (fmt_d x +:+ "," +:+ fmt_d y +:+ "," +:+ fmt_d w +:+ ","
                     +:+ fmt_d h) = Ok r
    /\ Min r = mkPoint x y /\ Dx r = w /\ Dy r = h.
Proof.
  intros Hx Hy Hw Hh Hw0 Hh0 Hxw Hyh.
  exists (image_Rect x y (int_add x w) (int_add y h)).
  split; [apply parseRegion_fmt_d; assumption|].
  unfold int_add.
  rewrite (wrap_in_int (x + w)) by (unfold in_int in *; lia).
  rewrite (wrap_in_int (y + h)) by (unfold in_int in *; lia).
  unfold image_Rect, Dx, Dy.
  destruct (Z.ltb_spec (x + w) x); [lia|].
  destruct (Z.ltb_spec (y + h) y); [lia|]. cbn.
  replace (x + w - x) with w by lia. replace (y + h - y) with h by lia.
  rewrite !wrap_in_int by assumption. auto.
Qed.

Lemma parseRegion_origin_and_size_witness :
  exists r,
    cmd.parseRegion "100,100,500,400" = Ok r
    /\ Min r = mkPoint 100 100 /\ Dx r = 500 /\ Dy r = 400.
Proof.
  apply (parseRegion_origin_and_size 100 100 500 400);
    unfold in_int, minInt, maxInt, intSize; cbn; lia.
Defined.

(** X5: a width that takes [x+width] past the largest [int] is not
    refused: the sum wraps around, the corners are swapped, and the
    rectangle reaches from the wrapped sum up to [x]. *)
Theorem parseRegion_width_overflow (x y w h : Z) :
  in_int x -> in_int y -> in_int w -> in_int h ->
  maxInt < x + w ->
  exists r,
    cmd.parseRegion (fmt_d x +:+ "," +:+ fmt_d y +:+ "," +:+ fmt_d w +:+ ","
                     +:+ fmt_d h) = Ok r
    /\ X (Max r) = x /\ X (Min r) = x + w - 2 ^ intSize.
Proof.
  intros Hx Hy Hw Hh Hover.
  exists (image_Rect x y (int_add x w) (int_add y h)).
  split; [apply parseRegion_fmt_d; assumption|].
  unfold int_add. rewrite (wrap_above (x + w)).
  - unfold image_Rect.
    assert (Hlt : x + w - 2 ^ intSize < x).
    { unfold in_int, maxInt, minInt, intSize in *.
      change (2 ^ (64 - 1)) with 9223372036854775808 in *.
      change (2 ^ 64) with 18446744073709551616. lia. }
    destruct (Z.ltb_spec (x + w - 2 ^ intSize) x); [|lia].
    destruct (wrap (y + h) <? y); cbn; auto.
  - unfold in_int, maxInt, minInt, intSize in *.
    change (2 ^ (64 - 1)) with 9223372036854775808 in *.
    change (2 ^ 64) with 18446744073709551616. lia.
Qed.

Lemma parseRegion_width_overflow_witness :
  exists r,
    cmd.parseRegion "9223372036854775807,0,1,1" = Ok r
    /\ X (Max r) = 9223372036854775807 /\ X (Min r) = -9223372036854775808.
Proof.
  apply (parseRegion_width_overflow 9223372036854775807 0 1 1);
    unfold in_int, minInt, maxInt, intSize; cbn; lia.
Defined.

Lemma parse_vals_first_bad (pre post : list string) (p : string) :
  Forall (fun q => Atoi (TrimSpace q) <> None) pre ->
  Atoi (TrimSpace p) = None ->
  cmd.parse_vals (pre ++ p :: post)
  = Err (errorString ("invalid number: " +:+ p)).
Proof.
  intros Hpre Hp. induction Hpre as [|q pre Hq _ IH]; cbn.
  - rewrite Hp. reflexivity.
  - destruct (Atoi (TrimSpace q)); [|congruence].
    change (cmd.parse_vals (pre ++ p :: post)) with
      (cmd.parse_vals (pre ++ p :: post)%list).
    rewrite IH. reflexivity.
Qed.

(** X6: a region of four components of which one is not an [int] is
    refused with "invalid number:" followed by the first such component, as
    it was written (white space included). *)
Theorem parseRegion_names_first_bad (s p : string) (pre post : list string) :
  Split_comma s = (pre ++ p :: post)%list ->
  length (pre ++ p :: post) = 4%nat ->
  Forall (fun q => Atoi (TrimSpace q) <> None) pre ->
  Atoi (TrimSpace p) = None ->
  cmd.parseRegion s = Err (errorString ("invalid number: " +:+ p)).
Proof.
  intros Hs Hlen Hpre Hp. unfold cmd.parseRegion. rewrite Hs, Hlen.
  cbn [Nat.eqb negb]. rewrite parse_vals_first_bad by assumption.
  reflexivity.
Qed.

Lemma parseRegion_names_first_bad_witness :
  cmd.parseRegion "1, 2x,y,4" = Err (errorString "invalid number:  2x").
Proof.
  apply (parseRegion_names_first_bad "1, 2x,y,4" " 2x" ["1"] ["y"; "4"]).
  - reflexivity.
  - reflexivity.
  - constructor; [vm_compute; discriminate|constructor].
  - reflexivity.
Defined.

Lemma Split_comma_length (s : string) :
  length (Split_comma s) = S (count_commas s).
Proof.
  induction s as [|c r IH]; [reflexivity|].
  cbn [Split_comma count_commas]. unfold is_comma.
  destruct (Ascii.eqb c ","); cbn [length]; [rewrite IH; reflexivity|].
  destruct (Split_comma r) as [|q qs]; [discriminate IH|exact IH].
Qed.

Lemma join_Split_comma (s : string) : join_comma (Split_comma s) = s.
Proof.
  induction s as [|c r IH]; [reflexivity|].
  cbn [Split_comma]. destruct (Ascii.eqb_spec c ",") as [->|Hc].
  - destruct (Split_comma r) as [|q qs] eqn:E.
    + exfalso. exact (Split_comma_nonempty r E).
    + cbn [join_comma]. cbn [join_comma] in IH. rewrite IH. reflexivity.
  - destruct (Split_comma r) as [|q qs] eqn:E.
    + exfalso. exact (Split_comma_nonempty r E).
    + destruct qs as [|q' qs'].
      * cbn in *. rewrite IH. reflexivity.
      * cbn [join_comma] in *. rewrite append_String, IH. reflexivity.
Qed.

Lemma parse_vals_Err_shape (parts : list string) (e : error) :
  cmd.parse_vals parts = Err e ->
  exists p, e = errorString ("invalid number: " +:+ p).
Proof.
  revert e. induction parts as [|q rest IH]; cbn; intros e; [discriminate|].
  destruct (Atoi (TrimSpace q)).
  - destruct (cmd.parse_vals rest) as [vs|e']; [discriminate|].
    intros [= <-]. apply IH. reflexivity.
  - intros [= <-]. eauto.
Qed.

(** X7: splitting at the commas loses nothing (the parts joined by commas
    are the string again) and gives one part more than there are commas; a
    region is refused with "expected x,y,width,height" exactly when it does
    not have three commas. *)
Theorem parseRegion_needs_three_commas (s : string) :
  join_comma (Split_comma s) = s /\
  length (Split_comma s) = S (count_commas s) /\
  (count_commas s <> 3%nat <->
   cmd.parseRegion s = Err (errorString "expected x,y,width,height")).
Proof.
  split; [apply join_Split_comma|]. split; [apply Split_comma_length|].
  pose proof (Split_comma_length s) as Hlen. unfold cmd.parseRegion.
  destruct (Nat.eqb_spec (length (Split_comma s)) 4) as [E|E]; cbn [negb].
  - split; [lia|]. intros Herr. exfalso.
    destruct (cmd.parse_vals (Split_comma s)) as [vs|e] eqn:Ev.
    + apply parse_vals_length in Ev. rewrite E in Ev.
      destruct vs as [|a [|b [|c [|d [|]]]]]; discriminate.
    + apply parse_vals_Err_shape in Ev as [q ->].
      rewrite append_String in Herr. discriminate Herr.
  - split; [reflexivity|]. lia.
Qed.

Lemma parseRegion_needs_three_commas_witness :
  cmd.parseRegion "1,2,3" = Err (errorString "expected x,y,width,height").
Proof.
  destruct (parseRegion_needs_three_commas "1,2,3") as (_ & _ & Hcount).
  apply Hcount. cbn. lia.
Defined.

(** ** More on the X11 strategy *)

Section MoreX11.
Context `{Host}.

Lemma body_frame_target (opts : CaptureOptions) (t : string) :
  exists (r : result Image) (evs : list Event),
    Forall (fun e => event_target e = Some t) evs /\
    forall w1, getenv (env w1) "DISPLAY" = t ->
      X11Strategy.Capture_body opts w1 = (r, with_log w1 evs).
Proof.
  destruct (Region opts) as [region|] eqn:Hr.
  { exists (CaptureRect t region), [EvCaptureRect t region].
    split; [repeat constructor|]. intros w1 Hw1.
    rewrite (body_region opts region) by exact Hr. rewrite Hw1. reflexivity. }
  destruct (Nat.eq_dec (NumActiveDisplays t) 0%nat) as [Hn|Hn].
  { exists (Err (errorString "no active displays found")),
      [EvNumActiveDisplays t].
    split; [repeat constructor|]. intros w1 Hw1.
    rewrite body_no_displays by (rewrite ?Hw1; assumption).
    rewrite Hw1. reflexivity. }
  destruct (Z.eq_dec (Monitor opts) (-1)) as [Hm|Hm].
  { do 2 eexists. split; [|intros w1 Hw1;
      rewrite body_all_monitors by (rewrite ?Hw1; assumption);
      rewrite Hw1; reflexivity].
    constructor; [reflexivity|]. apply Forall_app. split.
    - apply Forall_forall. intros e He.
      apply list_elem_of_fmap in He as (i & -> & _). reflexivity.
    - repeat constructor. }
  destruct (Z_lt_le_dec (Monitor opts) 0) as [Hlo|Hlo].
  { do 2 eexists. split; [|intros w1 Hw1;
      rewrite body_out_of_range by (rewrite ?Hw1; auto);
      rewrite Hw1; reflexivity].
    repeat constructor. }
  destruct (Z_lt_le_dec (Monitor opts) (Z.of_nat (NumActiveDisplays t)))
    as [Hhi|Hhi].
  - do 2 eexists. split; [|intros w1 Hw1;
      rewrite body_one_monitor by (rewrite ?Hw1; auto);
      rewrite Hw1; reflexivity].
    repeat constructor.
  - do 2 eexists. split; [|intros w1 Hw1;
      rewrite body_out_of_range by (rewrite ?Hw1; auto);
      rewrite Hw1; reflexivity].
    repeat constructor.
Qed.




(** X10: an error of the [Close] that [SavePNG] defers is dropped: when the
    directory, the creation and the encoding succeed, [SavePNG] returns no
    error even though closing the file failed, and the file is no longer
    held open. *)
Theorem SavePNG_drops_close_error (img : Image) (path : string) (level : Z)
    (w : World) (e : error) :
  let dir := filepath_Dir path in
  let fd := fresh (open_files w) in
  MkdirAll_error dir = None -> Create_error path = None ->
  Encode_error (ToFile fd) (capture.intToCompressionLevel level) img = None ->
  Close_error fd = Some e ->
  (capture.SavePNG img path level w).1 = None /\
  (fd ∉ open_files (capture.SavePNG img path level w).2) /\
  (EvClose fd ∈ log (capture.SavePNG img path level w).2).
Proof.
  intros dir fd Hmk Hcr Hen Hcl. subst fd.
  unfold capture.SavePNG. fold dir.
  unfold capture.SavePNG_encode, os_MkdirAll, os_Create, file_Close,
    png_Encode, set_dirs, set_open_files, get_open_files.
  rewrite Hmk, Hcr.
  destruct (negb (string_eqb dir "") && negb (string_eqb dir "."));
    step_m; rewrite Hen; step_m; rewrite close_after_open;
    (split; [reflexivity|]); (split; [apply fresh_not_open|]);
    rewrite !elem_of_app; right; apply list_elem_of_singleton; reflexivity.
Qed.

End MoreX11.



Lemma SavePNG_drops_close_error_witness :
  (@capture.SavePNG failing_close_host
     (mkRectangle (mkPoint 0 0) (mkPoint 1 1)) "a.png" 1 (fresh_world ∅)).1
  = None.
Proof.
  apply (@SavePNG_drops_close_error failing_close_host
           (mkRectangle (mkPoint 0 0) (mkPoint 1 1)) "a.png" 1 (fresh_world ∅)
           (errorString "close: input/output error")); reflexivity.
Defined.

(** ** The command as a whole *)

Section RunFacts.
Context `{Host}.

Lemma advances_refl (P : Event -> Prop) (w : World) : advances P w w.
Proof.
  repeat split. exists []. rewrite app_nil_r. split; [reflexivity|constructor].
Qed.

Lemma advances_trans (P : Event -> Prop) (w1 w2 w3 : World) :
  advances P w1 w2 -> advances P w2 w3 -> advances P w1 w3.
Proof.
  intros (He1 & Hf1 & evs1 & Hl1 & HP1) (He2 & Hf2 & evs2 & Hl2 & HP2).
  split; [congruence|]. split; [congruence|].
  exists (evs1 ++ evs2)%list. split.
  - rewrite Hl2, Hl1, app_assoc. reflexivity.
  - apply Forall_app. auto.
Qed.

Lemma advances_mono (P Q : Event -> Prop) (w w' : World) :
  (forall e, P e -> Q e) -> advances P w w' -> advances Q w w'.
Proof.
  intros HPQ (He & Hf & evs & Hl & HP). repeat split; try assumption.
  exists evs. split; [assumption|]. eapply Forall_impl; eauto.
Qed.

Lemma advances_emit (P : Event -> Prop) (e : Event) (w : World) :
  P e -> advances P w (emit e w).2.
Proof.
  intros He. repeat split. exists [e]. split; [reflexivity|].
  constructor; [exact He|constructor].
Qed.

Lemma restored_nonempty (e : gmap string string) :
  getenv e "DISPLAY" <> "" -> restored e = e.
Proof.
  intros Hne. unfold restored. apply string_eqb_neq in Hne.
  rewrite Hne. reflexivity.
Qed.

Lemma Capture_advances (opts : CaptureOptions) (w : World) :
  getenv (env w) "DISPLAY" <> "" ->
  advances screen_event w (X11Strategy.Capture opts w).2.
Proof.
  intros Hne.
  destruct (body_frame_target opts (target (Display opts) (env w)))
    as (r & evs & Hevs & Hbody).
  rewrite (Capture_run opts w r evs Hbody). cbn [snd].
  split; [apply restored_nonempty, Hne|]. split; [reflexivity|].
  exists evs. split; [reflexivity|].
  eapply Forall_impl; [exact Hevs|]. intros e He. unfold screen_event.
  rewrite He. eauto.
Qed.

Lemma ListMonitors_advances (w : World) :
  getenv (env w) "DISPLAY" <> "" ->
  advances screen_event w (X11Strategy.ListMonitors w).2.
Proof.
  intros Hne. rewrite ListMonitors_run. cbn [snd].
  apply string_eqb_neq in Hne. rewrite Hne.
  split; [reflexivity|]. split; [reflexivity|].
  eexists. split; [reflexivity|].
  constructor; [unfold screen_event; cbn; eauto|].
  destruct (NumActiveDisplays (target "" (env w)) =? 0)%nat; [constructor|].
  apply Forall_forall. intros e He.
  apply list_elem_of_fmap in He as (i & -> & _).
  unfold screen_event; cbn; eauto.
Qed.

Lemma SavePNG_advances (img : Image) (path : string) (level : Z)
    (w : World) :
  advances (file_event path) w (capture.SavePNG img path level w).2.
Proof.
  unfold capture.SavePNG.
  unfold capture.SavePNG_encode, os_MkdirAll, os_Create, file_Close,
    png_Encode, set_dirs, set_open_files, get_open_files.
  destruct (negb (string_eqb (filepath_Dir path) "")
            && negb (string_eqb (filepath_Dir path) ".")); step_m.
  - destruct (MkdirAll_error (filepath_Dir path)); step_m.
    { repeat split. eexists. split; [reflexivity|].
      repeat constructor. }
    destruct (Create_error path); step_m.
    { repeat split. eexists. split; [rewrite <- app_assoc; reflexivity|].
      repeat constructor. }
    destruct (Encode_error _ _ _); step_m;
      (split; [reflexivity|]); (split; [apply close_after_open|]);
      eexists; (split; [rewrite <- !app_assoc; reflexivity|]);
      repeat constructor.
  - destruct (Create_error path); step_m.
    { repeat split. eexists. split; [reflexivity|]. repeat constructor. }
    destruct (Encode_error _ _ _); step_m;
      (split; [reflexivity|]); (split; [apply close_after_open|]);
      eexists; (split; [rewrite <- !app_assoc; reflexivity|]);
      repeat constructor.
Qed.

Lemma WritePNG_advances (img : Image) (level : Z) (w : World) :
  advances stdout_event w (capture.WritePNG img ToStdout level w).2.
Proof.
  unfold capture.WritePNG, png_Encode. step_m.
  destruct (Encode_error _ _ _); step_m;
    repeat split; eexists; (split; [reflexivity|]);
    (constructor; [right; eauto|constructor]).
Qed.

Lemma openFile_advances (f : cmd.Flags) (path : string) (w : World) :
  cmd.view f = true ->
  advances (save_event f path) w (cmd.openFile path w).2.
Proof.
  intros Hv. unfold cmd.openFile, exec_Start.
  assert (Hstart : forall argv,
    advances (save_event f path) w (emit (EvStart (argv ++ [path])) w).2).
  { intros argv. apply advances_emit. right. right. right. eauto. }
  destruct (string_eqb GOOS "linux"); [step_m; apply (Hstart ["xdg-open"])|].
  destruct (string_eqb GOOS "darwin"); [step_m; apply (Hstart ["open"])|].
  destruct (string_eqb GOOS "windows");
    [step_m; apply (Hstart ["cmd"; "/c"; "start"; ""])|].
  apply advances_refl.
Qed.

(** The registry [New] builds, and the world it leaves. *)
Lemma New_world (w : World) :
  capture.New w =
  (if (0 <? NumActiveDisplays (target "" (env w)))%nat
   then capture.mkCapturer [X11Strategy.NewX11Strategy]
   else capture.mkCapturer [],
   mkWorld (with_default_display (env w)) (originalDisplay w) (dirs w)
     (open_files w)
     (log w ++ [EvNumActiveDisplays (target "" (env w))])).
Proof.
  rewrite New_run. cbn [Strategy_Available X11Strategy.NewX11Strategy].
  rewrite Available_run. reflexivity.
Qed.

Lemma print_monitors_run (ms : list Monitor_t) (w : World) :
  cmd.print_monitors ms w =
  (tt, with_log w (map (fun m => EvPrint (cmd.monitor_line m)) ms)).
Proof.
  revert w. induction ms as [|m rest IH]; intros w.
  - cbn. rewrite with_log_nil. reflexivity.
  - cbn [cmd.print_monitors map]. unfold Print. step_m.
    rewrite IH. unfold with_log. cbn. rewrite <- app_assoc. reflexivity.
Qed.

Lemma run_capture_stdout (f : cmd.Flags) (c : capture.Capturer)
    (path : string) (opts : CaptureOptions) (w : World) :
  cmd.stdout f = true -> x11_registry c ->
  getenv (env w) "DISPLAY" <> "" ->
  advances stdout_event w (cmd.run_capture f c path opts w).2.
Proof.
  intros Hs Hc Hne. unfold cmd.run_capture. rewrite Hs.
  unfold capture.Capture, capture.GetStrategy.
  destruct Hc as [Hc|[l Hc]]; rewrite Hc; cbn [length Nat.eqb];
    unfold mbind, M_bind, mret, M_ret.
  { apply advances_refl. }
  cbn [Strategy_Capture X11Strategy.NewX11Strategy].
  pose proof (Capture_advances opts w Hne) as Hcap.
  destruct (X11Strategy.Capture opts w) as [[img|e] w2]; cbn [snd] in Hcap.
  - eapply advances_trans.
    + eapply advances_mono; [|exact Hcap]. intros e He. left. exact He.
    + apply WritePNG_advances.
  - eapply advances_mono; [|exact Hcap]. intros e' He. left. exact He.
Qed.

Lemma run_capture_file (f : cmd.Flags) (c : capture.Capturer)
    (path : string) (opts : CaptureOptions) (w : World) :
  cmd.stdout f = false -> x11_registry c ->
  getenv (env w) "DISPLAY" <> "" ->
  advances (save_event f path) w (cmd.run_capture f c path opts w).2.
Proof.
  intros Hs Hc Hne. unfold cmd.run_capture. rewrite Hs.
  unfold capture.CaptureToFile, capture.GetStrategy.
  destruct Hc as [Hc|[l Hc]]; rewrite Hc; cbn [length Nat.eqb];
    unfold mbind, M_bind, mret, M_ret.
  { apply advances_refl. }
  cbn [Strategy_Capture X11Strategy.NewX11Strategy].
  pose proof (Capture_advances opts w Hne) as Hcap.
  destruct (X11Strategy.Capture opts w) as [[img|e] w2]; cbn [snd] in Hcap.
  - pose proof (SavePNG_advances img path (cmd.getCompressionLevel f) w2)
      as Hsave.
    destruct (capture.SavePNG img path (cmd.getCompressionLevel f) w2)
      as [[e|] w3]; cbn [snd] in Hsave.
    + eapply advances_trans.
      * eapply advances_mono; [|exact Hcap]. intros e' He. left. exact He.
      * eapply advances_mono; [|exact Hsave]. intros e' He. right. left.
        exact He.
    + assert (Hprint : advances (save_event f path) w
                (Print ("Screenshot saved: " +:+ path) w3).2).
      { eapply advances_trans.
        - eapply advances_mono; [|exact Hcap]. intros e' He. left. exact He.
        - eapply advances_trans.
          + eapply advances_mono; [|exact Hsave]. intros e' He.
            right. left. exact He.
          + apply advances_emit. right. right. left. reflexivity. }
      destruct (Print ("Screenshot saved: " +:+ path) w3) as [[] w4].
      cbn [snd] in Hprint.
      destruct (cmd.view f) eqn:Hv; [|exact Hprint].
      pose proof (openFile_advances f path w4 Hv) as Hopen.
      destruct (cmd.openFile path w4) as [[e|] w5]; cbn [snd] in Hopen;
        eapply advances_trans; eauto.
  - eapply advances_mono; [|exact Hcap]. intros e' He. left. exact He.
Qed.

Lemma New_registry (w : World) : x11_registry (capture.New w).1.
Proof.
  rewrite New_world. cbn [fst].
  destruct (0 <? NumActiveDisplays (target "" (env w)))%nat;
    [right; eauto|left; reflexivity].
Qed.

Lemma New_display (w : World) :
  getenv (env (capture.New w).2) "DISPLAY" <> "".
Proof.
  rewrite New_world. cbn [snd env]. rewrite getenv_with_default.
  apply target_nonempty.
Qed.

Lemma listMonitors_advances (c : capture.Capturer) (w : World) :
  x11_registry c -> getenv (env w) "DISPLAY" <> "" ->
  advances (fun e => screen_event e \/ exists line, e = EvPrint line) w
    (cmd.listMonitors c w).2.
Proof.
  intros Hc Hne. unfold cmd.listMonitors, capture.ListMonitors,
    capture.GetStrategy.
  destruct Hc as [Hc|[l Hc]]; rewrite Hc; cbn [length Nat.eqb];
    unfold mbind, M_bind, mret, M_ret.
  { apply advances_refl. }
  cbn [Strategy_ListMonitors X11Strategy.NewX11Strategy].
  pose proof (ListMonitors_advances w Hne) as Hlist.
  destruct (X11Strategy.ListMonitors w) as [[ms|e] w2]; cbn [snd] in Hlist.
  - unfold Print. step_m. rewrite print_monitors_run.
    eapply advances_trans.
    + eapply advances_mono; [|exact Hlist]. intros e He. left. exact He.
    + repeat split. eexists. unfold with_log. cbn [log].
      split; [rewrite <- app_assoc; reflexivity|].
      constructor; [right; eauto|].
      apply Forall_forall. intros e He.
      apply list_elem_of_fmap in He as (m & -> & _). right. eauto.
  - eapply advances_mono; [|exact Hlist]. intros e' He. left. exact He.
Qed.

Lemma run_list (f : cmd.Flags) (args : list string) (w : World) :
  cmd.listMon f = true ->
  cmd.run f args w = cmd.listMonitors (capture.New w).1 (capture.New w).2.
Proof.
  intros Hl. unfold cmd.run. unfold mbind, M_bind.
  destruct (capture.New w) as [c w1]. rewrite Hl. reflexivity.
Qed.

(** What [run] does after it has built the registry. *)
Lemma run_after_New (f : cmd.Flags) (args : list string) (w : World) :
  (cmd.run f args w).2 = (capture.New w).2 \/
  (cmd.run f args w).2 = (cmd.listMonitors (capture.New w).1 (capture.New w).2).2
    /\ cmd.listMon f = true \/
  (exists opts,
     (cmd.run f args w).2 =
       (cmd.run_capture f (capture.New w).1 (output_path f args) opts
          (capture.New w).2).2) /\ cmd.listMon f = false.
Proof.
  unfold cmd.run, output_path. unfold mbind, M_bind.
  destruct (capture.New w) as [c w1]. cbn [fst snd].
  destruct (cmd.listMon f); [right; left; auto|].
  destruct (negb (string_eqb (cmd.region f) "")).
  - destruct (cmd.parseRegion (cmd.region f)) as [rect|e].
    + right. right. split; [eauto|reflexivity].
    + left. reflexivity.
  - right. right. split; [eauto|reflexivity].
Qed.

(** X11: whatever it is asked to do and however it ends, the command leaves
    the environment as the availability check left it (the display target
    set to ":0" when there was none, nothing else changed) and holds no file
    open that was not open before. *)
Theorem run_keeps_environment_and_files (f : cmd.Flags) (args : list string)
    (w : World) :
  env (cmd.run f args w).2 = with_default_display (env w) /\
  open_files (cmd.run f args w).2 = open_files w.
Proof.
  assert (Hnew : env (capture.New w).2 = with_default_display (env w)
                 /\ open_files (capture.New w).2 = open_files w).
  { rewrite New_world. split; reflexivity. }
  destruct Hnew as [Henv Hopen].
  assert (Hadv : advances (fun _ => True) (capture.New w).2
                   (cmd.run f args w).2).
  { destruct (run_after_New f args w) as [E|[[E _]|[[opts E] _]]]; rewrite E.
    - apply advances_refl.
    - eapply advances_mono;
        [|apply listMonitors_advances;
          [apply New_registry|apply New_display]]. auto.
    - destruct (cmd.stdout f) eqn:Hs.
      + eapply advances_mono;
          [|apply run_capture_stdout;
            [exact Hs|apply New_registry|apply New_display]]. auto.
      + eapply advances_mono;
          [|apply run_capture_file;
            [exact Hs|apply New_registry|apply New_display]]. auto. }
  destruct Hadv as (He & Hf & _). split; congruence.
Qed.

Lemma New_log_screen (w : World) :
  exists evs, log (capture.New w).2 = (log w ++ evs)%list
              /\ Forall screen_event evs.
Proof.
  rewrite New_world. cbn [snd log]. eexists. split; [reflexivity|].
  constructor; [unfold screen_event; cbn; eauto|constructor].
Qed.

Lemma log_after_New (P : Event -> Prop) (w w' : World) :
  (forall e, screen_event e -> P e) ->
  advances P (capture.New w).2 w' ->
  exists evs, log w' = (log w ++ evs)%list /\ Forall P evs.
Proof.
  intros HP (_ & _ & evs & Hl & Hevs).
  destruct (New_log_screen w) as (evs0 & Hl0 & Hevs0).
  exists (evs0 ++ evs)%list. split.
  - rewrite Hl, Hl0, app_assoc. reflexivity.
  - apply Forall_app. split; [|exact Hevs].
    eapply Forall_impl; [exact Hevs0|exact HP].
Qed.

(** X12: a run that writes to the standard output does nothing but call
    the screenshot library and encode to the standard output: it prints no
    line, makes no directory, creates no file and starts no viewer, whatever
    the other flags. *)
Theorem run_stdout_mode (f : cmd.Flags) (args : list string) (w : World) :
  cmd.listMon f = false -> cmd.stdout f = true ->
  exists evs,
    log (cmd.run f args w).2 = (log w ++ evs)%list /\
    Forall stdout_event evs.
Proof.
  intros Hl Hs. apply (log_after_New stdout_event).
  { intros e He. left. exact He. }
  destruct (run_after_New f args w) as [E|[[_ E]|[[opts E] _]]].
  - rewrite E. apply advances_refl.
  - congruence.
  - rewrite E. apply run_capture_stdout;
      [exact Hs|apply New_registry|apply New_display].
Qed.

(** X13: a run that saves to a file makes no directory but the one of the
    output path and creates no file but the one at the output path; the only
    line it prints is "Screenshot saved: <path>", and it starts a viewer only
    with [-v], on that path.  The output path is the positional argument
    when it is not empty, else the value of [-o] when there is no positional
    argument and that value is not empty, else the generated name; an empty
    positional argument gives the generated name even when [-o] is set. *)
Theorem run_file_mode (f : cmd.Flags) (args : list string) (w : World) :
  cmd.listMon f = false -> cmd.stdout f = false ->
  (exists evs,
     log (cmd.run f args w).2 = (log w ++ evs)%list /\
     Forall (save_event f (output_path f args)) evs) /\
  (forall a rest, args = a :: rest -> a <> "" -> output_path f args = a) /\
  (forall rest, args = "" :: rest ->
     output_path f args = "screenshot_" +:+ timestamp +:+ ".png") /\
  (args = [] -> cmd.output f <> "" -> output_path f args = cmd.output f) /\
  (args = [] -> cmd.output f = "" ->
     output_path f args = "screenshot_" +:+ timestamp +:+ ".png").
Proof.
  intros Hl Hs. split; [|repeat split].
  - apply (log_after_New (save_event f (output_path f args))).
    { intros e He. left. exact He. }
    destruct (run_after_New f args w) as [E|[[_ E]|[[opts E] _]]].
    + rewrite E. apply advances_refl.
    + congruence.
    + rewrite E. apply run_capture_file;
        [exact Hs|apply New_registry|apply New_display].
  - intros a rest -> Ha. unfold output_path.
    apply string_eqb_neq in Ha. rewrite Ha. reflexivity.
  - intros rest ->. reflexivity.
  - intros -> Ho. unfold output_path.
    apply string_eqb_neq in Ho. rewrite Ho. reflexivity.
  - intros -> Ho. unfold output_path. rewrite Ho. reflexivity.
Qed.

(** X14: listing the monitors either fails with "no screenshot strategy
    available", when the addressed display has no screen, or prints a header
    with the number of displays and then one line per display, in
    enumeration order; it never captures, and the region, output and
    compression flags play no part. *)
Theorem run_list_mode (f : cmd.Flags) (args : list string) (w : World) :
  let t := target "" (env w) in
  let n := NumActiveDisplays t in
  cmd.listMon f = true ->
  (n = 0%nat ->
   (cmd.run f args w).1
     = Some (errorString "no screenshot strategy available") /\
   log (cmd.run f args w).2 = (log w ++ [EvNumActiveDisplays t])%list) /\
  (n <> 0%nat ->
   (cmd.run f args w).1 = None /\
   log (cmd.run f args w).2 =
     (log w ++ [EvNumActiveDisplays t; EvNumActiveDisplays t]
        ++ map (EvGetDisplayBounds t) (indices n)
        ++ EvPrint ("Available monitors (" +:+ fmt_d (Z.of_nat n) +:+ "):")
        :: map (fun i => EvPrint (cmd.monitor_line (monitor_entry t i)))
             (indices n))%list).
Proof.
  intros t n Hl. rewrite (run_list f args w Hl), New_world.
  cbn [fst snd]. fold t. fold n.
  unfold cmd.listMonitors, capture.ListMonitors, capture.GetStrategy.
  split; intros Hn.
  - rewrite Hn. cbn. auto.
  - destruct n as [|m] eqn:En; [contradiction|]. cbn [Nat.ltb Nat.leb].
    cbn [capture.strategies length Nat.eqb].
    unfold mbind, M_bind, mret, M_ret.
    cbn [Strategy_ListMonitors X11Strategy.NewX11Strategy].
    rewrite ListMonitors_run. cbn [env].
    rewrite target_with_default.
    replace (string_eqb "" "") with true by reflexivity. fold t.
    fold n. rewrite En. cbn [Nat.eqb].
    unfold Print, emit. cbn [env originalDisplay dirs open_files log].
    rewrite print_monitors_run. unfold with_log.
    cbn [fst snd env originalDisplay dirs open_files log].
    split; [reflexivity|].
    rewrite !length_map. unfold indices at 2. rewrite length_map, length_seq.
    rewrite map_map. rewrite <- !app_assoc. cbn [app]. reflexivity.
Qed.

(** X15: when the display the availability check addresses has no screen,
    a capture run fails with "no screenshot strategy available" (under
    "capture failed:" when writing to the standard output) and asks for no
    capture, even when [-d] names another display. *)
Theorem run_without_screens (f : cmd.Flags) (args : list string) (w : World) :
  let t := target "" (env w) in
  let none := errorString "no screenshot strategy available" in
  cmd.listMon f = false ->
  cmd.region f = "" \/ (exists r, cmd.parseRegion (cmd.region f) = Ok r) ->
  NumActiveDisplays t = 0%nat ->
  (cmd.run f args w).1
    = Some (if cmd.stdout f then Errorf_w "capture failed: " none else none)
  /\ log (cmd.run f args w).2 = (log w ++ [EvNumActiveDisplays t])%list.
Proof.
  intros t none Hl Hregion Hn.
  assert (Hrun : forall path opts w1,
    cmd.run_capture f (capture.mkCapturer []) path opts w1
    = (Some (if cmd.stdout f then Errorf_w "capture failed: " none else none),
       w1)).
  { intros path opts w1. unfold cmd.run_capture.
    destruct (cmd.stdout f); reflexivity. }
  assert (Hnew : capture.New w =
    (capture.mkCapturer [],
     mkWorld (with_default_display (env w)) (originalDisplay w) (dirs w)
       (open_files w) (log w ++ [EvNumActiveDisplays t]))).
  { rewrite New_world. fold t. rewrite Hn. reflexivity. }
  assert (Heq : cmd.run f args w =
    (Some (if cmd.stdout f then Errorf_w "capture failed: " none else none),
     mkWorld (with_default_display (env w)) (originalDisplay w) (dirs w)
       (open_files w) (log w ++ [EvNumActiveDisplays t]))).
  { unfold cmd.run. unfold mbind, M_bind. rewrite Hnew, Hl.
    destruct Hregion as [Hr|[r Hr]].
    - rewrite Hr. replace (string_eqb "" "") with true by reflexivity.
      cbn [negb]. apply Hrun.
    - rewrite Hr. destruct (negb (string_eqb (cmd.region f) ""));
        apply Hrun. }
  rewrite Heq. split; reflexivity.
Qed.

(** The body of [Capture] asks for at most one capture, as its last call,
    and succeeds only with what that capture answered. *)
Lemma body_outcome (opts : CaptureOptions) (t : string) :
  exists (r : result Image) (evs : list Event),
    (forall w1, getenv (env w1) "DISPLAY" = t ->
       X11Strategy.Capture_body opts w1 = (r, with_log w1 evs)) /\
    ((exists e, r = Err e /\ captures evs = []) \/
     (exists pre rect,
        r = CaptureRect t rect /\ captures pre = [] /\
        evs = (pre ++ [EvCaptureRect t rect])%list)).
Proof.
  destruct (Region opts) as [region|] eqn:Hr.
  { exists (CaptureRect t region), [EvCaptureRect t region]. split.
    - intros w1 Hw1. rewrite (body_region opts region) by exact Hr.
      rewrite Hw1. reflexivity.
    - right. exists [], region. auto. }
  destruct (Nat.eq_dec (NumActiveDisplays t) 0%nat) as [Hn|Hn].
  { do 2 eexists. split.
    - intros w1 Hw1. rewrite body_no_displays by (rewrite ?Hw1; assumption).
      rewrite Hw1. reflexivity.
    - left. eauto. }
  destruct (Z.eq_dec (Monitor opts) (-1)) as [Hm|Hm].
  { do 2 eexists. split.
    - intros w1 Hw1.
      rewrite body_all_monitors by (rewrite ?Hw1; assumption).
      rewrite Hw1. reflexivity.
    - right.
      exists (EvNumActiveDisplays t
              :: map (EvGetDisplayBounds t) (indices (NumActiveDisplays t))),
        (combined_rect t (NumActiveDisplays t)).
      split; [reflexivity|]. split; [|reflexivity].
      change (captures (?e :: ?l)) with (captures l).
      apply captures_GetDisplayBounds. }
  destruct (Z_lt_le_dec (Monitor opts) 0) as [Hlo|Hlo].
  { do 2 eexists. split.
    - intros w1 Hw1. rewrite body_out_of_range by (rewrite ?Hw1; auto).
      rewrite Hw1. reflexivity.
    - left. eauto. }
  destruct (Z_lt_le_dec (Monitor opts) (Z.of_nat (NumActiveDisplays t)))
    as [Hhi|Hhi].
  - do 2 eexists. split.
    + intros w1 Hw1. rewrite body_one_monitor by (rewrite ?Hw1; auto).
      rewrite Hw1. reflexivity.
    + right.
      exists [EvNumActiveDisplays t; EvGetDisplayBounds t (Monitor opts)],
        (GetDisplayBounds t (Monitor opts)). auto.
  - do 2 eexists. split.
    + intros w1 Hw1. rewrite body_out_of_range by (rewrite ?Hw1; auto).
      rewrite Hw1. reflexivity.
    + left. eauto.
Qed.


Lemma SavePNG_success (img : Image) (path : string) (level : Z) (w : World) :
  (capture.SavePNG img path level w).1 = None ->
  exists mk,
    (mk = [] \/ mk = [EvMkdirAll (filepath_Dir path)]) /\
    log (capture.SavePNG img path level w).2 =
      (log w ++ mk ++ [EvCreate path;
                       EvEncode (ToFile (fresh (open_files w)))
                         (capture.intToCompressionLevel level);
                       EvClose (fresh (open_files w))])%list /\
    Encode_error (ToFile (fresh (open_files w)))
      (capture.intToCompressionLevel level) img = None.
Proof.
  unfold capture.SavePNG.
  unfold capture.SavePNG_encode, os_MkdirAll, os_Create, file_Close,
    png_Encode, set_dirs, set_open_files, get_open_files.
  destruct (negb (string_eqb (filepath_Dir path) "")
            && negb (string_eqb (filepath_Dir path) ".")); step_m.
  - destruct (MkdirAll_error (filepath_Dir path)); step_m; [discriminate|].
    destruct (Create_error path); step_m; [discriminate|].
    destruct (Encode_error _ _ _) eqn:Een; step_m; [discriminate|].
    intros _. exists [EvMkdirAll (filepath_Dir path)].
    split; [auto|]. split; [|reflexivity].
    rewrite <- !app_assoc. reflexivity.
  - destruct (Create_error path); step_m; [discriminate|].
    destruct (Encode_error _ _ _) eqn:Een; step_m; [discriminate|].
    intros _. exists []. split; [auto|]. split; [|reflexivity].
    rewrite <- !app_assoc. reflexivity.
Qed.

Lemma openFile_run (path : string) (w : World) :
  exists post,
    (cmd.openFile path w).2 = with_log w post /\
    (post = [] \/ exists argv, post = [EvStart argv]).
Proof.
  unfold cmd.openFile, exec_Start.
  destruct (string_eqb GOOS "linux"); [step_m; eauto|].
  destruct (string_eqb GOOS "darwin"); [step_m; eauto|].
  destruct (string_eqb GOOS "windows"); [step_m; eauto|].
  exists []. rewrite with_log_nil. auto.
Qed.

Lemma run_capture_file_success (f : cmd.Flags) (l : list Strategy)
    (path : string) (opts : CaptureOptions) (w : World) :
  let t := target (Display opts) (env w) in
  let lvl := capture.intToCompressionLevel (cmd.getCompressionLevel f) in
  let out := cmd.run_capture f
               (capture.mkCapturer (X11Strategy.NewX11Strategy :: l))
               path opts w in
  cmd.stdout f = false -> out.1 = None ->
  exists pre rect mk fd post img,
    log out.2 =
      (log w ++ pre ++ [EvCaptureRect t rect] ++ mk
         ++ [EvCreate path; EvEncode (ToFile fd) lvl; EvClose fd;
             EvPrint ("Screenshot saved: " +:+ path)] ++ post)%list /\
    captures pre = [] /\
    (mk = [] \/ mk = [EvMkdirAll (filepath_Dir path)]) /\
    (post = [] \/ cmd.view f = true /\ exists argv, post = [EvStart argv]) /\
    CaptureRect t rect = Ok img /\ Encode_error (ToFile fd) lvl img = None.
Proof.
  intros t lvl out Hs. unfold out, cmd.run_capture. rewrite Hs.
  unfold capture.CaptureToFile, capture.GetStrategy.
  cbn [capture.strategies length Nat.eqb].
  unfold mbind, M_bind, mret, M_ret.
  cbn [Strategy_Capture X11Strategy.NewX11Strategy].
  destruct (body_outcome opts t) as (r & evs & Hbody & Hout).
  rewrite (Capture_run opts w r evs Hbody).
  destruct Hout as [(e & -> & _)|(pre & rect & -> & Hpre & ->)];
    [cbn; discriminate|].
  destruct (CaptureRect t rect) as [img|e] eqn:Hcap; [|cbn; discriminate].
  match goal with
  | |- context [capture.SavePNG img path ?lv ?w2] =>
      pose proof (SavePNG_success img path lv w2) as Hsave;
      destruct (capture.SavePNG img path lv w2) as [[e|] w3]
  end; [cbn; discriminate|].
  destruct (Hsave eq_refl) as (mk & Hmk & Hlog & Henc).
  cbn [snd log open_files] in Hlog, Henc. fold lvl in Hlog, Henc.
  unfold Print, emit. cbn [fst snd].
  destruct (cmd.view f) eqn:Hv.
  - unfold mbind, M_bind, mret, M_ret.
    match goal with
    | |- context [cmd.openFile path ?w4] =>
        destruct (openFile_run path w4) as (post & Hpost & Hshape);
        destruct (cmd.openFile path w4) as [[e|] w5]
    end; [cbn; discriminate|].
    cbn [fst snd] in *. intros _. subst w5. unfold with_log. cbn [log].
    exists pre, rect, mk, (fresh (open_files w)), post, img.
    split; [|split; [exact Hpre|split; [exact Hmk|split; [|auto]]]].
    + rewrite Hlog. rewrite <- !app_assoc. reflexivity.
    + destruct Hshape as [->|Hstart]; [left; reflexivity|right; auto].
  - cbn [fst snd log]. intros _.
    exists pre, rect, mk, (fresh (open_files w)), [], img.
    split; [|split; [exact Hpre|split; [exact Hmk|split; [auto|auto]]]].
    rewrite Hlog. rewrite <- !app_assoc. reflexivity.
Qed.

Lemma run_capture_stdout_success (f : cmd.Flags) (l : list Strategy)
    (path : string) (opts : CaptureOptions) (w : World) :
  let t := target (Display opts) (env w) in
  let lvl := capture.intToCompressionLevel (cmd.getCompressionLevel f) in
  let out := cmd.run_capture f
               (capture.mkCapturer (X11Strategy.NewX11Strategy :: l))
               path opts w in
  cmd.stdout f = true -> out.1 = None ->
  exists pre rect img,
    log out.2 =
      (log w ++ pre ++ [EvCaptureRect t rect; EvEncode ToStdout lvl])%list /\
    captures pre = [] /\
    CaptureRect t rect = Ok img /\ Encode_error ToStdout lvl img = None.
Proof.
  intros t lvl out Hs. unfold out, cmd.run_capture. rewrite Hs.
  unfold capture.Capture, capture.GetStrategy.
  cbn [capture.strategies length Nat.eqb].
  unfold mbind, M_bind, mret, M_ret.
  cbn [Strategy_Capture X11Strategy.NewX11Strategy].
  destruct (body_outcome opts t) as (r & evs & Hbody & Hout).
  rewrite (Capture_run opts w r evs Hbody).
  destruct Hout as [(e & -> & _)|(pre & rect & -> & Hpre & ->)];
    [cbn; discriminate|].
  destruct (CaptureRect t rect) as [img|e] eqn:Hcap; [|cbn; discriminate].
  unfold capture.WritePNG, png_Encode. step_m. fold lvl.
  destruct (Encode_error ToStdout lvl img) eqn:Hen; step_m; [discriminate|].
  intros _. exists pre, rect, img.
  split; [|auto]. rewrite <- !app_assoc. reflexivity.
Qed.

Lemma run_capture_empty_registry (f : cmd.Flags) (path : string)
    (opts : CaptureOptions) (w : World) :
  (cmd.run_capture f (capture.mkCapturer []) path opts w).1 <> None.
Proof. unfold cmd.run_capture. destruct (cmd.stdout f); discriminate. Qed.

Lemma run_capture_mode (f : cmd.Flags) (args : list string) (w : World) :
  cmd.listMon f = false ->
  (exists e, (cmd.run f args w).1 = Some e) \/
  (exists region,
     cmd.run f args w =
     cmd.run_capture f (capture.New w).1 (output_path f args)
       (mkCaptureOptions (cmd.monitor f) region 0 (cmd.display f))
       (capture.New w).2).
Proof.
  intros Hl. unfold cmd.run, output_path. unfold mbind, M_bind.
  destruct (capture.New w) as [c w1]. cbn [fst snd]. rewrite Hl.
  destruct (negb (string_eqb (cmd.region f) "")).
  - destruct (cmd.parseRegion (cmd.region f)) as [rect|e].
    + right. eauto.
    + left. eauto.
  - right. eauto.
Qed.

(** X17: a run that saves to a file and reports no error has asked for
    exactly one capture, on the display given with [-d] (else the ambient
    one, else ":0"), got an image, created the file at the output path,
    encoded that image into it at the level the flags select without an
    error, closed it, and only then printed "Screenshot saved: <path>"; the
    viewer, if any, is started last. *)
Theorem run_success_means_saved (f : cmd.Flags) (args : list string)
    (w : World) :
  let path := output_path f args in
  let lvl := capture.intToCompressionLevel (cmd.getCompressionLevel f) in
  let t := if string_eqb (cmd.display f) "" then target "" (env w)
           else cmd.display f in
  cmd.listMon f = false -> cmd.stdout f = false ->
  (cmd.run f args w).1 = None ->
  exists pre rect mk fd post img,
    log (cmd.run f args w).2 =
      (log w ++ pre ++ [EvCaptureRect t rect] ++ mk
         ++ [EvCreate path; EvEncode (ToFile fd) lvl; EvClose fd;
             EvPrint ("Screenshot saved: " +:+ path)] ++ post)%list /\
    captures pre = [] /\
    (mk = [] \/ mk = [EvMkdirAll (filepath_Dir path)]) /\
    (post = [] \/ cmd.view f = true /\ exists argv, post = [EvStart argv]) /\
    CaptureRect t rect = Ok img /\ Encode_error (ToFile fd) lvl img = None.
Proof.
  intros path lvl t Hl Hs Hnone. subst path.
  destruct (run_capture_mode f args w Hl) as [[e He]|[region Hrun]];
    [congruence|].
  rewrite Hrun in Hnone |- *. rewrite New_world in Hnone |- *.
  cbn [fst snd] in Hnone |- *.
  destruct (0 <? NumActiveDisplays (target "" (env w)))%nat.
  - destruct (run_capture_file_success f [] (output_path f args) _ _ Hs Hnone)
      as (pre & rect & mk & fd & post & img & Hlog & Hpre & Hmk & Hpost
          & Hcap & Hen).
    cbn [Display env log] in Hlog, Hcap. rewrite target_with_default in *.
    fold t in Hlog, Hcap. fold lvl in Hlog, Hen.
    exists (EvNumActiveDisplays (target "" (env w)) :: pre), rect, mk, fd,
      post, img.
    split; [|split; [exact Hpre|auto]].
    rewrite Hlog. rewrite <- !app_assoc. reflexivity.
  - exfalso. exact (run_capture_empty_registry _ _ _ _ Hnone).
Qed.

(** X18: a run that writes to the standard output and reports no error has
    asked for exactly one capture, on the display given with [-d] (else the
    ambient one, else ":0"), got an image and encoded it to the standard
    output at the level the flags select, as its last call. *)
Theorem run_success_means_written (f : cmd.Flags) (args : list string)
    (w : World) :
  let lvl := capture.intToCompressionLevel (cmd.getCompressionLevel f) in
  let t := if string_eqb (cmd.display f) "" then target "" (env w)
           else cmd.display f in
  cmd.listMon f = false -> cmd.stdout f = true ->
  (cmd.run f args w).1 = None ->
  exists pre rect img,
    log (cmd.run f args w).2 =
      (log w ++ pre ++ [EvCaptureRect t rect; EvEncode ToStdout lvl])%list /\
    captures pre = [] /\
    CaptureRect t rect = Ok img /\ Encode_error ToStdout lvl img = None.
Proof.
  intros lvl t Hl Hs Hnone.
  destruct (run_capture_mode f args w Hl) as [[e He]|[region Hrun]];
    [congruence|].
  rewrite Hrun in Hnone |- *. rewrite New_world in Hnone |- *.
  cbn [fst snd] in Hnone |- *.
  destruct (0 <? NumActiveDisplays (target "" (env w)))%nat.
  - destruct (run_capture_stdout_success f [] (output_path f args) _ _ Hs Hnone)
      as (pre & rect & img & Hlog & Hpre & Hcap & Hen).
    cbn [Display env log] in Hlog, Hcap. rewrite target_with_default in *.
    fold t in Hlog, Hcap. fold lvl in Hlog, Hen.
    exists (EvNumActiveDisplays (target "" (env w)) :: pre), rect, img.
    split; [|split; [exact Hpre|auto]].
    rewrite Hlog. rewrite <- !app_assoc. reflexivity.
  - exfalso. exact (run_capture_empty_registry _ _ _ _ Hnone).
Qed.

End RunFacts.

Lemma ListStrategies_of_registry_witness :
  @capture.GetStrategy demo_host (capture.mkCapturer [])
  = Err (errorString "no screenshot strategy available").
Proof.
  destruct (@ListStrategies_of_registry demo_host (capture.mkCapturer [])
              (fresh_world ∅)) as (_ & Hiff & _).
  apply Hiff. reflexivity.
Defined.

Lemma run_stdout_mode_witness :
  exists evs,
    log (@cmd.run demo_host (demo_flags "") []
           (fresh_world {[ "DISPLAY" := ":0" ]})).2 = evs /\
    Forall stdout_event evs.
Proof.
  destruct (@run_stdout_mode demo_host (demo_flags "") []
              (fresh_world {[ "DISPLAY" := ":0" ]}) eq_refl eq_refl)
    as (evs & Hlog & Hevs).
  exists evs. split; [exact Hlog|exact Hevs].
Defined.

Lemma run_file_mode_witness :
  @output_path demo_host (save_flags "") ["shots/a.png"] = "shots/a.png" /\
  exists evs,
    log (@cmd.run demo_host (save_flags "") ["shots/a.png"]
           (fresh_world {[ "DISPLAY" := ":0" ]})).2 = evs /\
    Forall (@save_event demo_host (save_flags "")
              (@output_path demo_host (save_flags "") ["shots/a.png"])) evs.
Proof.
  destruct (@run_file_mode demo_host (save_flags "") ["shots/a.png"]
              (fresh_world {[ "DISPLAY" := ":0" ]}) eq_refl eq_refl)
    as ((evs & Hlog & Hevs) & Hpath & _).
  split.
  - apply (Hpath "shots/a.png" []); [reflexivity|discriminate].
  - exists evs. split; [exact Hlog|exact Hevs].
Defined.

Lemma run_list_mode_witness :
  (@cmd.run demo_host list_flags [] (fresh_world {[ "DISPLAY" := ":7" ]})).1
  = Some (errorString "no screenshot strategy available") /\
  (@cmd.run demo_host list_flags [] (fresh_world ∅)).1 = None.
Proof.
  split.
  - destruct (@run_list_mode demo_host list_flags []
                (fresh_world {[ "DISPLAY" := ":7" ]}) eq_refl) as [Hzero _].
    destruct (Hzero ltac:(vm_compute; reflexivity)) as [Hres _]. exact Hres.
  - destruct (@run_list_mode demo_host list_flags [] (fresh_world ∅) eq_refl)
      as [_ Hsome].
    destruct (Hsome ltac:(vm_compute; discriminate)) as [Hres _]. exact Hres.
Defined.

Lemma run_without_screens_witness :
  (@cmd.run demo_host (save_flags ":0") []
     (fresh_world {[ "DISPLAY" := ":7" ]})).1
  = Some (errorString "no screenshot strategy available").
Proof.
  assert (Hnone : @NumActiveDisplays demo_host
                     (target "" (env (fresh_world {[ "DISPLAY" := ":7" ]})))
                   = 0%nat) by (vm_compute; reflexivity).
  destruct (@run_without_screens demo_host (save_flags ":0") []
              (fresh_world {[ "DISPLAY" := ":7" ]}) eq_refl
              (or_introl eq_refl) Hnone) as [Hres _].
  exact Hres.
Defined.

Lemma run_success_means_saved_witness :
  exists pre rect mk fd post img,
    log (@cmd.run demo_host (save_flags "") ["shots/a.png"]
           (fresh_world {[ "DISPLAY" := ":0" ]})).2 =
      (pre ++ [EvCaptureRect ":0" rect] ++ mk
         ++ [EvCreate "shots/a.png"; EvEncode (ToFile fd) BestSpeed;
             EvClose fd; EvPrint "Screenshot saved: shots/a.png"]
         ++ post)%list /\
    captures pre = [] /\
    @CaptureRect demo_host ":0" rect = Ok img.
Proof.
  assert (Hok : (@cmd.run demo_host (save_flags "") ["shots/a.png"]
                   (fresh_world {[ "DISPLAY" := ":0" ]})).1 = None)
    by (vm_compute; reflexivity).
  destruct (@run_success_means_saved demo_host (save_flags "")
              ["shots/a.png"] (fresh_world {[ "DISPLAY" := ":0" ]})
              eq_refl eq_refl Hok)
    as (pre & rect & mk & fd & post & img & Hlog & Hpre & _ & _ & Hcap & _).
  exists pre, rect, mk, fd, post, img.
  split; [exact Hlog|]. split; [exact Hpre|exact Hcap].
Defined.

Lemma run_success_means_written_witness :
  exists pre rect img,
    log (@cmd.run demo_host (demo_flags "10,10,50,40") []
           (fresh_world {[ "DISPLAY" := ":0" ]})).2 =
      (pre ++ [EvCaptureRect ":0" rect; EvEncode ToStdout BestSpeed])%list /\
    captures pre = [] /\
    @CaptureRect demo_host ":0" rect = Ok img.
Proof.
  assert (Hok : (@cmd.run demo_host (demo_flags "10,10,50,40") []
                   (fresh_world {[ "DISPLAY" := ":0" ]})).1 = None)
    by (vm_compute; reflexivity).
  destruct (@run_success_means_written demo_host (demo_flags "10,10,50,40")
              [] (fresh_world {[ "DISPLAY" := ":0" ]})
              eq_refl eq_refl Hok)
    as (pre & rect & img & Hlog & Hpre & Hcap & _).
  exists pre, rect, img.
  split; [exact Hlog|]. split; [exact Hpre|exact Hcap].
Defined.

(** ** Calls one after the other *)

Section Sequences.
Context `{Host}.

Lemma getenv_delete (e : gmap string string) (k : string) :
  getenv (delete k e) k = "".
Proof. unfold getenv. rewrite lookup_delete_eq. reflexivity. Qed.

Lemma target_restored (override : string) (e : gmap string string) :
  target override (restored e) = target override e.
Proof.
  unfold restored.
  destruct (string_eqb (getenv e "DISPLAY") "") eqn:Ee; [|reflexivity].
  unfold target. rewrite getenv_delete, Ee. reflexivity.
Qed.

Lemma restored_idempotent (e : gmap string string) :
  restored (restored e) = restored e.
Proof.
  unfold restored.
  destruct (string_eqb (getenv e "DISPLAY") "") eqn:Ee.
  - rewrite getenv_delete.
    replace (string_eqb "" "") with true by reflexivity.
    apply delete_id. apply lookup_delete_eq.
  - rewrite Ee. reflexivity.
Qed.

(** X19: a capture does not depend on the captures made before it: made
    after any other call of [Capture], with or without an override, it
    returns what it would have returned on its own, and the environment
    after the two calls is the one a single call leaves. *)
Theorem Capture_independent_of_history (first second : CaptureOptions)
    (w : World) :
  (X11Strategy.Capture second (X11Strategy.Capture first w).2).1
  = (X11Strategy.Capture second w).1 /\
  env (X11Strategy.Capture second (X11Strategy.Capture first w).2).2
  = env (X11Strategy.Capture first w).2.
Proof.
  destruct (body_frame first (target (Display first) (env w)))
    as (r1 & evs1 & Hbody1).
  destruct (body_frame second (target (Display second) (env w)))
    as (r2 & evs2 & Hbody2).
  rewrite (Capture_run first w r1 evs1 Hbody1).
  rewrite (Capture_run second w r2 evs2 Hbody2).
  rewrite (Capture_run second _ r2 evs2).
  - cbn [fst snd env]. split; [reflexivity|apply restored_idempotent].
  - intros w1 Hw1. cbn [env snd] in Hw1. rewrite target_restored in Hw1.
    apply Hbody2. exact Hw1.
Qed.

(** X20: the monitors [ListMonitors] reports are the ones [Capture]
    accepts: for each entry of the list, capturing the monitor of that index
    (no region, no override) asks for exactly the bounds the entry shows; the
    index just past the list is refused as out of range. *)
Theorem listed_monitors_can_be_captured (w : World) (ms : list Monitor_t) :
  let t := target "" (env w) in
  (X11Strategy.ListMonitors w).1 = Ok ms ->
  (forall m, m ∈ ms ->
     let opts := mkCaptureOptions (Index m) None 0 "" in
     (X11Strategy.Capture opts w).1 = CaptureRect t (Bounds m) /\
     captures (log (X11Strategy.Capture opts w).2)
     = (captures (log w) ++ [(t, Bounds m)])%list) /\
  (let opts := mkCaptureOptions (Z.of_nat (length ms)) None 0 "" in
   (X11Strategy.Capture opts w).1 =
     Err (errorString ("monitor " +:+ fmt_d (Z.of_nat (length ms))
                       +:+ " out of range (0-"
                       +:+ fmt_d (Z.of_nat (length ms) - 1) +:+ ")"))).
Proof.
  intros t. rewrite ListMonitors_run. cbn [fst]. fold t.
  destruct (Nat.eqb_spec (NumActiveDisplays t) 0) as [Hn|Hn]; [discriminate|].
  intros [= <-]. split.
  - intros m Hm.
    apply list_elem_of_fmap in Hm as (i & -> & Hi).
    unfold indices in Hi. apply list_elem_of_fmap in Hi as (k & -> & Hk).
    apply elem_of_seq in Hk. cbn [Index Bounds monitor_entry] in *.
    rewrite (Capture_run (mkCaptureOptions (Z.of_nat k) None 0 "") w
      (CaptureRect t (GetDisplayBounds t (Z.of_nat k)))
      [EvNumActiveDisplays t; EvGetDisplayBounds t (Z.of_nat k);
       EvCaptureRect t (GetDisplayBounds t (Z.of_nat k))]).
    + cbn [fst snd log]. rewrite captures_app. auto.
    + intros w1 Hw1. cbn [Display] in Hw1. fold t in Hw1.
      rewrite body_one_monitor; rewrite ?Hw1; cbn [Monitor Region];
        [reflexivity|reflexivity|lia].
  - unfold indices. rewrite !length_map, length_seq.
    rewrite (Capture_run
      (mkCaptureOptions (Z.of_nat (NumActiveDisplays t)) None 0 "") w
      (Err (errorString ("monitor " +:+ fmt_d (Z.of_nat (NumActiveDisplays t))
                         +:+ " out of range (0-"
                         +:+ fmt_d (Z.of_nat (NumActiveDisplays t) - 1)
                         +:+ ")")))
      [EvNumActiveDisplays t]); [reflexivity|].
    intros w1 Hw1. cbn [Display] in Hw1. fold t in Hw1.
    rewrite body_out_of_range; rewrite ?Hw1; cbn [Monitor Region];
      [reflexivity|reflexivity|assumption|lia|lia].
Qed.


End Sequences.

Lemma listed_monitors_can_be_captured_witness :
  (@X11Strategy.Capture demo_host (mkCaptureOptions 1 None 0 "")
     (fresh_world ∅)).1
  = Ok (mkRectangle (mkPoint 1920 0) (mkPoint 3840 1080)).
Proof.
  assert (Hlist : (@X11Strategy.ListMonitors demo_host (fresh_world ∅)).1
                  = Ok [mkMonitor 0 "Display 0" (demo_bounds 0);
                        mkMonitor 1 "Display 1" (demo_bounds 1)])
    by (vm_compute; reflexivity).
  destruct (@listed_monitors_can_be_captured demo_host (fresh_world ∅) _ Hlist)
    as [Hin _].
  destruct (Hin (mkMonitor 1 "Display 1" (demo_bounds 1))) as [Hres _].
  - apply list_elem_of_further, list_elem_of_here.
  - exact Hres.
Defined.

